(** * Fertilizer recommender: a shallow embedding of [app.py]

    The Flask application keeps two module globals ([model] and
    [label_encoders]), fills them once from two pickled artifacts, and
    serves three routes.  The embedding below follows the source function by
    function.  Python exceptions are values of type [exn]; the handlers run
    in a small state-and-error monad [Py] over the process state, which also
    records what the process printed and which uses it made of the two
    artifact objects. *)

From Stdlib Require Import ZArith Ascii String SpecFloat.
From stdpp Require Import gmap strings list fin_maps pretty.

Local Open Scope string_scope.
Local Open Scope list_scope.
Local Open Scope Z_scope.

(** ** Python values and exceptions *)

(** A Python [float] is an IEEE-754 binary64 number. *)
Definition float : Type := spec_float.

(** [float(n)] for a Python [int], and the conversion numpy applies to an
    integer placed in a float64 array: round to nearest, ties to even. *)
Definition Z_to_float (n : Z) : float := binary_normalize 53 1024 n 0 false.

(** The value of one field of the JSON body, as [json.loads] produces it.
    Field values range over the JSON scalars; [PNone] is JSON [null] and
    also what [dict.get] answers for a key that is not there.  A field
    whose value is a JSON array or object is outside this model: what numpy
    and scikit-learn make of one differs with its shape and their version. *)
Inductive pyval :=
  | PNone
  | PBool (b : bool)
  | PInt (n : Z)
  | PFloat (f : float)
  | PStr (s : string).

(** The exception classes the program can tell apart; an exception of a
    subclass of one of them counts under that class.  Every other subclass
    of [Exception] is an [OtherException] carrying its class name. *)
Inductive exn_class :=
  | FileNotFoundError
  | TypeError
  | ValueError
  | KeyError
  | AttributeError
  | IndexError
  | OverflowError
  | OtherException (name : string).

(** An exception instance; [exn_msg] is what [str(e)] gives. *)
Record exn := Raise { exn_cls : exn_class; exn_msg : string }.

Definition is_FileNotFoundError (e : exn) : bool :=
  match exn_cls e with FileNotFoundError => true | _ => false end.

(** [isinstance(e, (TypeError, ValueError))] *)
Definition is_TypeError_or_ValueError (e : exn) : bool :=
  match exn_cls e with TypeError | ValueError => true | _ => false end.

(** ** The two artifacts *)

(** The NUL character, and a string with its trailing NUL characters
    dropped: numpy pads a fixed-width string with NULs and takes trailing
    NULs for padding, so a Python string handed to numpy loses them. *)
Definition NUL : string := String "000"%char EmptyString.

Fixpoint strip_nul (s : string) : string :=
  match s with
  | EmptyString => EmptyString
  | String c rest =>
      match strip_nul rest with
      | EmptyString => if Ascii.eqb c "000"%char then EmptyString else String c EmptyString
      | rest' => String c rest'
      end
  end.

(** [s] does not end in NUL. *)
Definition plain (s : string) : bool := String.eqb (strip_nul s) s.

(** The element type of a label array: fixed-width unicode ([<U..], what
    fitting on a list or an array of strings gives) or Python objects (what
    fitting on a column of dtype [object] gives). *)
Inductive dtype :=
  | Unicode
  | Object.

(** A fitted label encoder: [classes_] is its array of labels, in the
    encoder's own order, with the array's element type; the code of a label
    is its position there.  The labels are category names and none ends in
    NUL (a unicode array cannot hold one that does). *)
Record Encoder := {
  classes_ : list string;
  classes_dtype : dtype;
  classes_plain : forallb plain classes_ = true
}.

(** [classes_.tolist()] *)
Definition tolist (enc : Encoder) : list string := classes_ enc.

(** [v in enc.classes_]: numpy turns [v] into an array and compares it with
    every label; a string is compared without its trailing NULs, and a
    value that is not a string equals no label. *)
Definition contains (enc : Encoder) (v : pyval) : bool :=
  match v with
  | PStr s => bool_decide (strip_nul s ∈ classes_ enc)
  | _ => false
  end.

(** Position of the first occurrence of [s] in [l]. *)
Definition index_of (s : string) (l : list string) : option nat :=
  fst <$> list_find (λ c, c = s) l.

(** [enc.transform([v])[0]]: the integer code of a known label, and
    [ValueError] for anything else.  The value is first made an array of
    the element type of [classes_]: a unicode array drops the trailing NULs
    of the string, an object array keeps the Python string as it is. *)
Definition transform (enc : Encoder) (v : pyval) : exn + Z :=
  match v with
  | PStr s =>
      let key := match classes_dtype enc with Unicode => strip_nul s | Object => s end in
      match index_of key (classes_ enc) with
      | Some i => inr (Z.of_nat i)
      | None => inl (Raise ValueError ("y contains previously unseen labels: " +:+ s))
      end
  | _ => inl (Raise ValueError "y contains previously unseen labels")
  end.

(** The trained classifier, consumed as a black box: [clf_predict] is
    [model.predict], from a batch of feature rows to one label per row (or
    an exception). *)
Record Classifier := { clf_predict : list (list float) → exn + list Z }.

(** ** Process state *)

Inductive event :=
  | Stdout (line : string)                      (* print(line) *)
  | EncoderLookup (field : string)              (* label_encoders[field] *)
  | ModelPredict (features : list (list float)). (* model.predict(features) *)

(** The module globals [model] and [label_encoders] ([None] until loaded),
    and the events of the process so far, oldest first. *)
Record process := Process {
  model : option Classifier;
  label_encoders : option (gmap string Encoder);
  events : list event
}.

(** The state at import time: [model = None], [label_encoders = None]. *)
Definition initial : process := Process None None [].

(** A computation reads and writes the process state and either returns a
    value or raises. *)
Definition Py (A : Type) : Type := process → (exn + A) * process.

#[export] Instance Py_ret : MRet Py := λ A a p, (inr a, p).

#[export] Instance Py_bind : MBind Py := λ A B k c p,
  match c p with
  | (inr a, p') => k a p'
  | (inl e, p') => (inl e, p')
  end.

Definition raise {A} (e : exn) : Py A := λ p, (inl e, p).

(** Lift the outcome of a pure operation that may raise. *)
Definition lift {A} (r : exn + A) : Py A := λ p, (r, p).

(** [try: body  except ... as e: handler e] *)
Definition try_except {A} (body : Py A) (handler : exn → Py A) : Py A := λ p,
  match body p with
  | (inl e, p') => handler e p'
  | (inr a, p') => (inr a, p')
  end.

Definition emit (ev : event) : Py unit := λ p,
  (inr tt, Process (model p) (label_encoders p) (events p ++ [ev])).

Definition print (line : string) : Py unit := emit (Stdout line).

Definition get_model : Py (option Classifier) := λ p, (inr (model p), p).

Definition get_label_encoders : Py (option (gmap string Encoder)) :=
  λ p, (inr (label_encoders p), p).

(** [global model; model = v] *)
Definition set_model (v : option Classifier) : Py unit := λ p,
  (inr tt, Process v (label_encoders p) (events p)).

(** [global label_encoders; label_encoders = v] *)
Definition set_label_encoders (v : option (gmap string Encoder)) : Py unit := λ p,
  (inr tt, Process (model p) v (events p)).

(** [label_encoders[field]]: subscripting [None] is a [TypeError], a key
    that is not in the dict a [KeyError]. *)
Definition encoder_item (field : string) : Py Encoder :=
  encs ← get_label_encoders;
  emit (EncoderLookup field);;
  match encs with
  | None => raise (Raise TypeError "'NoneType' object is not subscriptable")
  | Some d =>
      match d !! field with
      | Some enc => mret enc
      | None => raise (Raise KeyError ("'" +:+ field +:+ "'"))
      end
  end.

(** [model.predict(features)] *)
Definition model_predict (features : list (list float)) : Py (list Z) :=
  m ← get_model;
  emit (ModelPredict features);;
  match m with
  | None => raise (Raise AttributeError "'NoneType' object has no attribute 'predict'")
  | Some clf => lift (clf_predict clf features)
  end.

(** [xs[0]] *)
Definition item0 {A} (xs : list A) : exn + A :=
  match xs with
  | x :: _ => inr x
  | [] => inl (Raise IndexError "index 0 is out of bounds for axis 0 with size 0")
  end.

(** ** Constants *)

Definition MODEL_PATH : string := "decision_tree_model.pkl".
Definition ENCODER_PATH : string := "label_encoders.pkl".

Definition FERTILIZER_MAPPING : gmap Z string :=
  list_to_map
    [ (0, "Balanced NPK Fertilizer");
      (1, "Compost");
      (2, "DAP");
      (3, "General Purpose Fertilizer");
      (4, "Gypsum");
      (5, "Lime");
      (6, "Muriate of Potash");
      (7, "Organic Fertilizer");
      (8, "Urea");
      (9, "Water Retaining Fertilizer") ].

(** ** Loading the artifacts *)

(** What is found at an artifact's path: nothing, a file that cannot be
    opened or unpickled (with the exception that says so), or a pickled
    object. *)
Inductive artifact (A : Type) :=
  | NoSuchFile
  | Unloadable (e : exn)
  | Pickled (a : A).
Arguments NoSuchFile {A}.
Arguments Unloadable {A} e.
Arguments Pickled {A} a.

Record filesystem := {
  model_file : artifact Classifier;
  encoder_file : artifact (gmap string Encoder)
}.

(** [with open(path, 'rb') as f: pickle.load(f)] *)
Definition open_and_load {A} (path : string) (file : artifact A) : exn + A :=
  match file with
  | NoSuchFile =>
      inl (Raise FileNotFoundError
             ("[Errno 2] No such file or directory: '" +:+ path +:+ "'"))
  | Unloadable e => inl e
  | Pickled a => inr a
  end.

Definition load_assets (fs : filesystem) : Py unit :=
  try_except
    (m ← lift (open_and_load MODEL_PATH (model_file fs));
     set_model (Some m);;
     encs ← lift (open_and_load ENCODER_PATH (encoder_file fs));
     set_label_encoders (Some encs);;
     print ("✔ Model and Label Encoders loaded successfully." +:+ String "010"%char EmptyString))
    (λ e,
       if is_FileNotFoundError e then
         print ("✘ Error: One or both files (" +:+ MODEL_PATH +:+ ", "
                  +:+ ENCODER_PATH +:+ ") not found.");;
         print "Please ensure the model and encoder files are in the same directory as app.py.";;
         set_model None;;
         set_label_encoders None
       else
         print ("✘ Error loading assets: " +:+ exn_msg e);;
         set_model None;;
         set_label_encoders None).

(** Both artifacts are there and unpickle. *)
Definition loads (fs : filesystem) : bool :=
  match model_file fs, encoder_file fs with
  | Pickled _, Pickled _ => true
  | _, _ => false
  end.

(** The states a process passes through: the one at import time, the one
    [load_assets] leaves, and any of these with further events (the globals
    are assigned nowhere else). *)
Inductive reachable : process → Prop :=
  | reachable_initial : reachable initial
  | reachable_load fs p : reachable p → reachable (load_assets fs p).2
  | reachable_events p evs :
      reachable p → reachable (Process (model p) (label_encoders p) evs).

(** The guard of the two routes: [model is None or label_encoders is None]. *)
Definition absent (p : process) : Prop :=
  model p = None ∨ label_encoders p = None.

(** ** Dropdown options *)

(** [not label_encoders]: [None] and the empty dict are falsy. *)
Definition falsy (encs : option (gmap string Encoder)) : bool :=
  match encs with
  | None => true
  | Some d => bool_decide (d = ∅)
  end.

Definition get_categorical_options : Py (gmap string (list string)) :=
  encs ← get_label_encoders;
  if falsy encs then
    mret {[ "Soil" := []; "Crop" := [] ]}
  else
    soil_enc ← encoder_item "Soil";
    crop_enc ← encoder_item "Crop";
    mret {[ "Soil" := tolist soil_enc; "Crop" := tolist crop_enc ]}.

(** ** Responses *)

(** A value handed to a template. *)
Inductive tval :=
  | TStr (s : string)
  | TList (l : list string).

(** What a view returns: [jsonify(obj)] or [render_template(name, **context)]. *)
Inductive payload :=
  | Jsonify (obj : gmap string pyval)
  | RenderTemplate (name : string) (context : gmap string tval).

(** A view's return value with its HTTP status (200 when the view gives none). *)
Record response := Response { body : payload; status : Z }.

Definition is_None {A} (o : option A) : bool :=
  match o with None => true | Some _ => false end.

(** [d[key]] *)
Definition subscript {A} (d : gmap string A) (key : string) : exn + A :=
  match d !! key with
  | Some a => inr a
  | None => inl (Raise KeyError ("'" +:+ key +:+ "'"))
  end.

(** ** Route [/] *)

Definition home : Py response :=
  mret (Response (RenderTemplate "home.html" ∅) 200).

(** ** Route [/recommend] *)

Definition recommend_form : Py response :=
  m ← get_model;
  encs ← get_label_encoders;
  if is_None m || is_None encs then
    mret (Response
            (RenderTemplate "error.html"
               {[ "message" := TStr "Application assets (model/encoders) failed to load. Please check server logs." ]})
            500)
  else
    options ← get_categorical_options;
    soil_options ← lift (subscript options "Soil");
    crop_options ← lift (subscript options "Crop");
    mret (Response
            (RenderTemplate "recommend.html"
               {[ "soil_options" := TList soil_options;
                  "crop_options" := TList crop_options ]})
            200).

(** ** Route [/predict] *)

(** The parsed JSON document: a dict of fields, or a value of another type
    (list, str, ...), named by its Python type. *)
Inductive json_document :=
  | JDict (d : gmap string pyval)
  | JOther (type_name : string).

(** A POST request: [request_json] is what evaluating [request.json] gives,
    the parsed body or the exception Flask raises for a body it rejects. *)
Record request := Request { request_json : exn + json_document }.

(** [d.get(key)] on a dict: the value, or [None] for a key that is not there. *)
Definition dict_get (d : gmap string pyval) (key : string) : pyval :=
  default PNone (d !! key).

(** [data.get(key)] *)
Definition get (data : json_document) (key : string) : exn + pyval :=
  match data with
  | JDict d => inr (dict_get d key)
  | JOther ty =>
      inl (Raise AttributeError ("'" +:+ ty +:+ "' object has no attribute 'get'"))
  end.

#[export] Instance exn_bind : MBind (sum exn) := λ A B k r,
  match r with
  | inr a => k a
  | inl e => inl e
  end.

(** [{'error': message}] *)
Definition error_body (message : string) : payload :=
  Jsonify {[ "error" := PStr message ]}.

(** [{'success': True, 'fertilizer_recommendation': name}] *)
Definition success_body (name : string) : payload :=
  Jsonify {[ "success" := PBool true; "fertilizer_recommendation" := PStr name ]}.

(** The seven numeric fields of the body, in the order [predict] reads them. *)
Definition numeric_fields : list string :=
  [ "Temperature"; "Moisture"; "PH"; "Nitrogen"; "Phosphorous"; "Potassium"; "Carbon" ].

Definition INVALID_INPUT : string :=
  "Invalid input. Ensure all numerical fields are filled correctly.".

(** The two [except] clauses of [predict]: [except (TypeError, ValueError)]
    and [except Exception as e]. *)
Definition predict_except (e : exn) : Py response :=
  if is_TypeError_or_ValueError e then
    mret (Response (error_body INVALID_INPUT) 400)
  else
    print ("Prediction error: " +:+ exn_msg e);;
    mret (Response
            (error_body ("Unexpected server error during prediction: " +:+ exn_msg e))
            500).

Section Runtime.

(** Two conversions of the Python runtime between floats and text are taken
    as given: [float(s)] for a string ([None] when it raises [ValueError]),
    and [str(f)] for a float. *)
Variable float_of_string : string → option float.
Variable float_repr : float → string.

(** [float(v)] *)
Definition py_float (v : pyval) : exn + float :=
  match v with
  | PNone =>
      inl (Raise TypeError
             "float() argument must be a string or a real number, not 'NoneType'")
  | PBool b => inr (Z_to_float (if b then 1 else 0))
  | PInt n =>
      match Z_to_float n with
      | S754_infinity _ =>
          inl (Raise OverflowError "int too large to convert to float")
      | f => inr f
      end
  | PFloat f => inr f
  | PStr s =>
      match float_of_string s with
      | Some f => inr f
      | None => inl (Raise ValueError ("could not convert string to float: '" +:+ s +:+ "'"))
      end
  end.

(** [str(v)], as an f-string renders [{v}] *)
Definition py_str (v : pyval) : string :=
  match v with
  | PNone => "None"
  | PBool b => if b then "True" else "False"
  | PInt n => pretty n
  | PFloat f => float_repr f
  | PStr s => s
  end.

Definition predict (request : request) : Py response :=
  m ← get_model;
  encs ← get_label_encoders;
  if is_None m || is_None encs then
    mret (Response (error_body "Model not loaded.") 500)
  else
    try_except
      (data ← lift (request_json request);
       temp ← lift (get data "Temperature" ≫= py_float);
       moisture ← lift (get data "Moisture" ≫= py_float);
       ph ← lift (get data "PH" ≫= py_float);
       nitrogen ← lift (get data "Nitrogen" ≫= py_float);
       phosphorous ← lift (get data "Phosphorous" ≫= py_float);
       potassium ← lift (get data "Potassium" ≫= py_float);
       carbon ← lift (get data "Carbon" ≫= py_float);
       soil ← lift (get data "Soil");
       crop ← lift (get data "Crop");
       soil_encoder ← encoder_item "Soil";
       if negb (contains soil_encoder soil) then
         mret (Response (error_body ("Unknown Soil Type: '" +:+ py_str soil +:+ "'")) 400)
       else
         crop_encoder ← encoder_item "Crop";
         if negb (contains crop_encoder crop) then
           mret (Response (error_body ("Unknown Crop Type: '" +:+ py_str crop +:+ "'")) 400)
         else
           soil_encoder ← encoder_item "Soil";
           soil_enc ← lift (transform soil_encoder soil);
           crop_encoder ← encoder_item "Crop";
           crop_enc ← lift (transform crop_encoder crop);
           let features :=
             [ [ temp; moisture; ph; nitrogen; phosphorous;
                 potassium; carbon; Z_to_float soil_enc; Z_to_float crop_enc ] ] in
           labels ← model_predict features;
           encoded_output ← lift (item0 labels);
           let fertilizer_name :=
             default "Unknown Fertilizer" (FERTILIZER_MAPPING !! encoded_output) in
           mret (Response (success_body fertilizer_name) 200))
      predict_except.

(** [float(d.get(key))] for each key in turn: the floats, or the exception
    of the first conversion that raises. *)
Fixpoint coerce_fields (d : gmap string pyval) (keys : list string) : exn + list float :=
  match keys with
  | [] => inr []
  | key :: keys =>
      f ← py_float (dict_get d key);
      fs ← coerce_fields d keys;
      inr (f :: fs)
  end.

End Runtime.

(** ** Vocabulary of the properties *)

(** The batches the classifier was invoked on, oldest first. *)
Definition model_inputs (evs : list event) : list (list (list float)) :=
  omap (λ ev, match ev with ModelPredict x => Some x | _ => None end) evs.

(** [c] leaves the two globals alone, and neither its result nor what it
    adds to the events depends on the events already there. *)
Definition read_only {A} (c : Py A) : Prop :=
  ∀ m encs, ∃ r new, ∀ evs, c (Process m encs evs) = (r, Process m encs (evs ++ new)).

(** Whenever [c] returns a value, the value satisfies [Q]. *)
Definition returns {A} (Q : A → Prop) (c : Py A) : Prop :=
  ∀ p r p', c p = (inr r, p') → Q r.

(** [c] raises nothing: it returns a value, and the value satisfies [Q]. *)
Definition answers {A} (Q : A → Prop) (c : Py A) : Prop :=
  ∀ p, ∃ r p', c p = (inr r, p') ∧ Q r.

(** What [/predict] answers: a success with status 200, or an error
    object, whose only key is [error], with status 400 or 500. *)
Definition well_formed (r : response) : Prop :=
  (status r = 200 ∧ ∃ name, body r = success_body name) ∨
  ((status r = 400 ∨ status r = 500) ∧ ∃ message, body r = error_body message).

(** A failure response as the spec describes it: a JSON object with an
    [error] key. *)
Definition json_error (r : response) : Prop :=
  ∃ obj, body r = Jsonify obj ∧ is_Some (obj !! "error").

(** The lines printed, oldest first. *)
Definition stdout_lines (evs : list event) : list string :=
  omap (λ ev, match ev with Stdout line => Some line | _ => None end) evs.

(** The fields whose encoder was looked up, oldest first. *)
Definition encoder_lookups (evs : list event) : list string :=
  omap (λ ev, match ev with EncoderLookup field => Some field | _ => None end) evs.

(** ** The main block and the three routes together *)

(** The [if __name__ == '__main__':] block, up to its call of [app.run]. *)
Definition startup (fs : filesystem) : Py unit :=
  load_assets fs;;
  print "🚀 Fertilizer Recommendation System starting...";;
  print ("🌐 Open your browser and visit: http://127.0.0.1:5000" +:+ String "010"%char EmptyString).

(** A request to one of the routes [app.route] registers: [GET /],
    [GET /recommend], [POST /predict]. *)
Inductive call :=
  | GetHome
  | GetRecommend
  | PostPredict (req : request).

(** Run a view; an exception that escapes it is handed back as a value
    (the framework answers it, the process goes on). *)
Definition attempt {A} (c : Py A) : Py (exn + A) := λ p,
  match c p with
  | (r, p') => (inr r, p')
  end.

(** What the routes answer while an asset is missing. *)
Definition degraded_answer (c : call) : response :=
  match c with
  | GetHome => Response (RenderTemplate "home.html" ∅) 200
  | GetRecommend =>
      Response
        (RenderTemplate "error.html"
           {[ "message" := TStr "Application assets (model/encoders) failed to load. Please check server logs." ]})
        500
  | PostPredict _ => Response (error_body "Model not loaded.") 500
  end.

Section Serving.

Variable float_of_string : string → option float.
Variable float_repr : float → string.

(** The view a request is routed to. *)
Definition view (c : call) : Py response :=
  match c with
  | GetHome => home
  | GetRecommend => recommend_form
  | PostPredict req => predict float_of_string float_repr req
  end.

(** The requests of a run, answered one after the other. *)
Fixpoint serve (calls : list call) : Py (list (exn + response)) :=
  match calls with
  | [] => mret []
  | c :: calls =>
      answer ← attempt (view c);
      answers ← serve calls;
      mret (answer :: answers)
  end.

End Serving.

(** ** Sample data *)

(** The float [m * 2^e]. *)
Definition dyadic (m e : Z) : float := binary_normalize 53 1024 m e false.

Fixpoint digits_value (acc : Z) (s : string) : option Z :=
  match s with
  | EmptyString => Some acc
  | String c rest =>
      let n := Z.of_nat (nat_of_ascii c) - 48 in
      if (0 <=? n) && (n <=? 9) then digits_value (10 * acc + n) rest else None
  end.

(** A stand-in for [float(s)] in the examples: it converts a string of
    decimal digits and rejects every other string. *)
Definition digits_to_float (s : string) : option float :=
  match s with
  | EmptyString => None
  | _ => Z_to_float <$> digits_value 0 s
  end.

(** A stand-in for [str(f)] in the examples. *)
Definition float_class_name (f : float) : string :=
  match f with
  | S754_zero _ => "0.0"
  | S754_infinity false => "inf"
  | S754_infinity true => "-inf"
  | S754_nan => "nan"
  | S754_finite _ _ _ => "finite"
  end.

Definition sample_soil : Encoder :=
  {| classes_ := [ "Clayey"; "Loamy"; "Sandy" ];
     classes_dtype := Unicode;
     classes_plain := eq_refl |}.

Definition sample_crop : Encoder :=
  {| classes_ := [ "Maize"; "Rice"; "Wheat" ];
     classes_dtype := Unicode;
     classes_plain := eq_refl |}.

(** The same labels in arrays of dtype [object]. *)
Definition object_soil : Encoder :=
  {| classes_ := [ "Clayey"; "Loamy"; "Sandy" ];
     classes_dtype := Object;
     classes_plain := eq_refl |}.

Definition object_crop : Encoder :=
  {| classes_ := [ "Maize"; "Rice"; "Wheat" ];
     classes_dtype := Object;
     classes_plain := eq_refl |}.

Definition object_encoders : gmap string Encoder :=
  {[ "Soil" := object_soil; "Crop" := object_crop ]}.

Definition sample_encoders : gmap string Encoder :=
  {[ "Soil" := sample_soil; "Crop" := sample_crop ]}.

(** A classifier that answers [label] for every row. *)
Definition constant_classifier (label : Z) : Classifier :=
  {| clf_predict := λ rows, inr ((λ _, label) <$> rows) |}.

Definition sample_process (label : Z) : process :=
  Process (Some (constant_classifier label)) (Some sample_encoders) [].

(** The seven measurements of the spec's scenario, "Nitrogen" sent as a
    string; 6.5 is [13 * 2^-1], and the float nearest 1.2 is
    [5404319552844595 * 2^-52]. *)
Definition sample_numbers : gmap string pyval :=
  {[ "Temperature" := PInt 25;
     "Moisture" := PInt 60;
     "PH" := PFloat (dyadic 13 (-1));
     "Nitrogen" := PStr "20";
     "Phosphorous" := PInt 15;
     "Potassium" := PInt 10;
     "Carbon" := PFloat (dyadic 5404319552844595 (-52)) ]}.

Definition sample_record (soil crop : string) : gmap string pyval :=
  <["Soil" := PStr soil]> (<["Crop" := PStr crop]> sample_numbers).

Definition post (d : gmap string pyval) : request := Request (inr (JDict d)).

(** A classifier that raises [e] on every batch. *)
Definition raising_classifier (e : exn) : Classifier :=
  {| clf_predict := λ _, inl e |}.

(** Both artifacts in place. *)
Definition sample_artifacts : filesystem :=
  {| model_file := Pickled (constant_classifier 8);
     encoder_file := Pickled sample_encoders |}.

(** The process after [load_assets] found both artifacts. *)
Definition loaded_process : process :=
  (load_assets {| model_file := Pickled (constant_classifier 8);
                  encoder_file := Pickled sample_encoders |} initial).2.

(** * Properties *)

(** ** Loading *)

Ltac run_py :=
  cbv [mbind mret Py_bind Py_ret exn_bind lift raise try_except emit print
       get_model get_label_encoders set_model set_label_encoders];
  cbn [model label_encoders events fst snd].

Lemma load_assets_success fs clf encs p :
  model_file fs = Pickled clf →
  encoder_file fs = Pickled encs →
  (load_assets fs p).1 = inr tt ∧
  model (load_assets fs p).2 = Some clf ∧
  label_encoders (load_assets fs p).2 = Some encs.
Proof.
  intros Hm He. unfold load_assets. rewrite Hm, He.
  destruct p as [m0 e0 evs]. now run_py.
Qed.

Lemma load_assets_failure fs p :
  loads fs = false →
  load_assets fs p =
    (inr tt, Process None None (events (load_assets fs p).2)).
Proof.
  unfold loads, load_assets. destruct p as [m0 e0 evs].
  destruct (model_file fs) as [|e|clf]; [| |destruct (encoder_file fs) as [|e|encs]];
    intros Hfail; try discriminate Hfail;
    unfold open_and_load; run_py;
    try destruct (is_FileNotFoundError e); now cbn.
Qed.

(** C2. When loading fails for whatever reason (a missing artifact, or an
    artifact that does not unpickle, the encoder set after a classifier
    that did load included), [load_assets] returns normally and leaves
    both [model] and [label_encoders] at [None], whatever they were
    before. *)
Theorem load_assets_failure_clears_both fs p :
  loads fs = false →
  (load_assets fs p).1 = inr tt ∧
  model (load_assets fs p).2 = None ∧
  label_encoders (load_assets fs p).2 = None.
Proof.
  intros Hfail. rewrite (load_assets_failure fs p Hfail). now cbn.
Qed.

(** After [load_assets] the two globals are set together or not at all. *)
Lemma load_assets_all_or_nothing fs p :
  model (load_assets fs p).2 = None ↔ label_encoders (load_assets fs p).2 = None.
Proof.
  destruct (loads fs) eqn:Hl.
  - unfold loads in Hl.
    destruct (model_file fs) as [| |clf] eqn:Hm; try discriminate.
    destruct (encoder_file fs) as [| |encs] eqn:He; try discriminate.
    destruct (load_assets_success fs clf encs p Hm He) as (_ & -> & ->).
    split; discriminate.
  - rewrite (load_assets_failure fs p Hl). now cbn.
Qed.

Lemma reachable_all_or_nothing p :
  reachable p → (model p = None ↔ label_encoders p = None).
Proof.
  induction 1 as [|fs p _ _|p evs _ IH].
  - now cbn.
  - apply load_assets_all_or_nothing.
  - exact IH.
Qed.

Lemma reachable_absent p :
  reachable p → absent p → model p = None ∧ label_encoders p = None.
Proof.
  intros Hr Ha. pose proof (reachable_all_or_nothing p Hr) as Hiff.
  destruct Ha; tauto.
Qed.

(** ** Dropdown options *)

Lemma falsy_with_field (d : gmap string Encoder) (field : string) (enc : Encoder) :
  d !! field = Some enc → falsy (Some d) = false.
Proof.
  intros Hd. cbn. apply bool_decide_eq_false. intros ->.
  now rewrite lookup_empty in Hd.
Qed.

Lemma encoder_item_found (field : string) (enc : Encoder) m d evs :
  d !! field = Some enc →
  encoder_item field (Process m (Some d) evs) =
    (inr enc, Process m (Some d) (evs ++ [EncoderLookup field])).
Proof. intros Hd. unfold encoder_item. run_py. now rewrite Hd. Qed.

Lemma options_without_encoders p :
  label_encoders p = None →
  get_categorical_options p = (inr {[ "Soil" := []; "Crop" := [] ]}, p).
Proof. destruct p as [m e evs]. cbn. now intros ->. Qed.

(** C7. With an encoder set that has an encoder for "Soil" and one for
    "Crop", [get_categorical_options] answers with exactly the two
    [classes_] lists, each in its encoder's own order.  Without an encoder
    set, and so in every state the process can be in while the classifier
    or the encoder set is missing, it answers with two empty lists, raises
    nothing and looks up no encoder. *)
Theorem options_are_the_class_lists p :
  (∀ d soil_enc crop_enc,
     label_encoders p = Some d →
     d !! "Soil" = Some soil_enc →
     d !! "Crop" = Some crop_enc →
     (get_categorical_options p).1 =
       inr {[ "Soil" := classes_ soil_enc; "Crop" := classes_ crop_enc ]}) ∧
  (label_encoders p = None →
     get_categorical_options p = (inr {[ "Soil" := []; "Crop" := [] ]}, p)) ∧
  (reachable p → absent p →
     get_categorical_options p = (inr {[ "Soil" := []; "Crop" := [] ]}, p)).
Proof.
  split; [|split].
  - intros d soil_enc crop_enc Hd Hs Hc. destruct p as [m e evs]. cbn in Hd. subst e.
    unfold get_categorical_options.
    cbv [mbind Py_bind get_label_encoders label_encoders].
    rewrite (falsy_with_field d "Soil" soil_enc Hs).
    rewrite (encoder_item_found "Soil" soil_enc _ _ _ Hs).
    rewrite (encoder_item_found "Crop" crop_enc _ _ _ Hc).
    reflexivity.
  - apply options_without_encoders.
  - intros Hr Ha. apply options_without_encoders.
    now destruct (reachable_absent p Hr Ha).
Qed.

(** ** What a computation can do to the process *)

Lemma read_only_ret {A} (a : A) : read_only (mret a).
Proof. intros m encs. exists (inr a), []. intros evs. now rewrite app_nil_r. Qed.

Lemma read_only_lift {A} (r : exn + A) : read_only (lift r).
Proof. intros m encs. exists r, []. intros evs. unfold lift. now rewrite app_nil_r. Qed.

Lemma read_only_raise {A} (e : exn) : read_only (@raise A e).
Proof. intros m encs. exists (inl e), []. intros evs. unfold raise. now rewrite app_nil_r. Qed.

Lemma read_only_emit ev : read_only (emit ev).
Proof. intros m encs. now exists (inr tt), [ev]. Qed.

Lemma read_only_get_model : read_only get_model.
Proof. intros m encs. exists (inr m), []. intros evs. unfold get_model. cbn. now rewrite app_nil_r. Qed.

Lemma read_only_get_label_encoders : read_only get_label_encoders.
Proof.
  intros m encs. exists (inr encs), []. intros evs.
  unfold get_label_encoders. cbn. now rewrite app_nil_r.
Qed.

Lemma read_only_bind {A B} (c : Py A) (k : A → Py B) :
  read_only c → (∀ a, read_only (k a)) → read_only (c ≫= k).
Proof.
  intros Hc Hk m encs. destruct (Hc m encs) as (r & new & Hrun).
  destruct r as [e|a].
  - exists (inl e), new. intros evs. cbv [mbind Py_bind]. now rewrite Hrun.
  - destruct (Hk a m encs) as (r' & new' & Hrun').
    exists r', (new ++ new'). intros evs. cbv [mbind Py_bind].
    now rewrite Hrun, Hrun', app_assoc.
Qed.

Lemma read_only_try {A} (body : Py A) (handler : exn → Py A) :
  read_only body → (∀ e, read_only (handler e)) → read_only (try_except body handler).
Proof.
  intros Hc Hk m encs. destruct (Hc m encs) as (r & new & Hrun).
  destruct r as [e|a].
  - destruct (Hk e m encs) as (r' & new' & Hrun').
    exists r', (new ++ new'). intros evs. unfold try_except.
    now rewrite Hrun, Hrun', app_assoc.
  - exists (inr a), new. intros evs. unfold try_except. now rewrite Hrun.
Qed.

Lemma read_only_if {A} (b : bool) (c1 c2 : Py A) :
  read_only c1 → read_only c2 → read_only (if b then c1 else c2).
Proof. now destruct b. Qed.

Create HintDb py_read_only.
#[local] Hint Resolve read_only_ret read_only_lift read_only_raise read_only_emit
  read_only_get_model read_only_get_label_encoders
  read_only_bind read_only_try read_only_if : py_read_only.

Lemma read_only_encoder_item field : read_only (encoder_item field).
Proof.
  unfold encoder_item. apply read_only_bind; [auto with py_read_only|].
  intros [d|]; apply read_only_bind; auto with py_read_only.
  intros _. destruct (d !! field); auto with py_read_only.
Qed.

Lemma read_only_model_predict features : read_only (model_predict features).
Proof.
  unfold model_predict. apply read_only_bind; [auto with py_read_only|].
  intros [clf|]; auto with py_read_only.
Qed.

Lemma read_only_predict_except e : read_only (predict_except e).
Proof. unfold predict_except, print. auto with py_read_only. Qed.

#[local] Hint Resolve read_only_encoder_item read_only_model_predict
  read_only_predict_except : py_read_only.

(** [returns Q c]: whenever [c] returns a value, it satisfies [Q].
    [answers Q c]: [c] always returns a value, and it satisfies [Q]. *)

Lemma returns_ret {A} (Q : A → Prop) (a : A) : Q a → returns Q (mret a).
Proof. intros Ha p r p' [= <- _]. exact Ha. Qed.

Lemma returns_bind {A B} (Q : B → Prop) (c : Py A) (k : A → Py B) :
  (∀ a, returns Q (k a)) → returns Q (c ≫= k).
Proof.
  intros Hk p r p'. cbv [mbind Py_bind].
  destruct (c p) as [[e|a] p1]; [discriminate|]. apply Hk.
Qed.

Lemma returns_if {A} (Q : A → Prop) (b : bool) (c1 c2 : Py A) :
  returns Q c1 → returns Q c2 → returns Q (if b then c1 else c2).
Proof. now destruct b. Qed.

Lemma answers_ret {A} (Q : A → Prop) (a : A) : Q a → answers Q (mret a).
Proof. intros Ha p. now exists a, p. Qed.

Lemma answers_bind {A B} (Q : B → Prop) (c : Py A) (k : A → Py B) :
  answers (λ _, True) c → (∀ a, answers Q (k a)) → answers Q (c ≫= k).
Proof.
  intros Hc Hk p. destruct (Hc p) as (a & p1 & Hrun & _).
  cbv [mbind Py_bind]. rewrite Hrun. apply Hk.
Qed.

Lemma answers_if {A} (Q : A → Prop) (b : bool) (c1 c2 : Py A) :
  answers Q c1 → answers Q c2 → answers Q (if b then c1 else c2).
Proof. now destruct b. Qed.

Lemma answers_try {A} (Q : A → Prop) (body : Py A) (handler : exn → Py A) :
  returns Q body → (∀ e, answers Q (handler e)) → answers Q (try_except body handler).
Proof.
  intros Hc Hk p. unfold try_except. destruct (body p) as [[e|a] p1] eqn:Hrun.
  - apply Hk.
  - exists a, p1. split; [reflexivity|]. exact (Hc p a p1 Hrun).
Qed.

Lemma answers_get_model : answers (λ _, True) get_model.
Proof. intros p. now exists (model p), p. Qed.

Lemma answers_get_label_encoders : answers (λ _, True) get_label_encoders.
Proof. intros p. now exists (label_encoders p), p. Qed.

Lemma answers_print line : answers (λ _, True) (print line).
Proof. intros p. unfold print, emit. eauto. Qed.

(** ** The lookup table *)

Lemma FERTILIZER_MAPPING_outside (label : Z) :
  ¬ (0 ≤ label ≤ 9) → FERTILIZER_MAPPING !! label = None.
Proof.
  intros Hout. unfold FERTILIZER_MAPPING. apply not_elem_of_list_to_map_1.
  cbn. rewrite !elem_of_cons, elem_of_nil. lia.
Qed.

Lemma FERTILIZER_MAPPING_inside (label : Z) :
  0 ≤ label ≤ 9 → is_Some (FERTILIZER_MAPPING !! label).
Proof.
  intros Hin.
  assert (label = 0 ∨ label = 1 ∨ label = 2 ∨ label = 3 ∨ label = 4 ∨
          label = 5 ∨ label = 6 ∨ label = 7 ∨ label = 8 ∨ label = 9) as Hcases by lia.
  repeat destruct Hcases as [->|Hcases]; try subst label; now eexists.
Qed.

(** ** The encoder *)

Lemma index_of_Some s l i :
  index_of s l = Some i → l !! i = Some s.
Proof.
  unfold index_of. destruct (list_find _ l) as [[j x]|] eqn:Hfind; [|discriminate].
  cbn. intros [= <-]. apply list_find_Some in Hfind as (Hx & -> & _). exact Hx.
Qed.

Lemma index_of_elem s l :
  s ∈ l → is_Some (index_of s l).
Proof.
  intros Hin. unfold index_of.
  destruct (list_find_elem_of (λ c, c = s) l s Hin eq_refl) as [[j x] ->]. now eexists.
Qed.

Lemma strip_nul_plain s : plain s = true → strip_nul s = s.
Proof. unfold plain. now intros H%String.eqb_eq. Qed.

(** A label is a string that does not end in NUL. *)
Lemma label_plain enc s : s ∈ classes_ enc → strip_nul s = s.
Proof.
  intros Hin. apply strip_nul_plain.
  pose proof (classes_plain enc) as Hall. rewrite forallb_forall in Hall.
  apply Hall. now apply list_elem_of_In.
Qed.

Lemma contains_true enc v :
  contains enc v = true ↔ ∃ s, v = PStr s ∧ strip_nul s ∈ classes_ enc.
Proof.
  split.
  - destruct v; try discriminate. cbn. intros H%bool_decide_eq_true. eauto.
  - intros (s & -> & Hin). cbn. now apply bool_decide_eq_true.
Qed.

(** A label passes the membership test, and its code is its position in
    [classes_], whatever the element type of the array. *)
Lemma contains_label enc s : s ∈ classes_ enc → contains enc (PStr s) = true.
Proof.
  intros Hin. cbn. apply bool_decide_eq_true. now rewrite (label_plain enc s Hin).
Qed.

Lemma transform_label enc s :
  s ∈ classes_ enc →
  ∃ i, transform enc (PStr s) = inr (Z.of_nat i) ∧ classes_ enc !! i = Some s.
Proof.
  intros Hin. destruct (index_of_elem s (classes_ enc) Hin) as [i Hi].
  exists i. cbn. rewrite (label_plain enc s Hin).
  destruct (classes_dtype enc); rewrite Hi; eauto using index_of_Some.
Qed.

(** A value that [transform] encodes passed the membership test, and its
    code is the position of the label it stands for. *)
Lemma transform_inr enc v code :
  transform enc v = inr code →
  contains enc v = true ∧
  ∃ s, v = PStr s ∧ 0 ≤ code ∧ classes_ enc !! Z.to_nat code = Some (strip_nul s).
Proof.
  destruct v as [| | | |s]; try discriminate. cbn.
  destruct (index_of _ (classes_ enc)) as [i|] eqn:Hi; [|discriminate].
  intros [= <-]. apply index_of_Some in Hi.
  assert (classes_ enc !! i = Some (strip_nul s)) as Hlabel.
  { destruct (classes_dtype enc); [exact Hi|].
    now rewrite (label_plain enc s (list_elem_of_lookup_2 _ _ _ Hi)). }
  split.
  - apply bool_decide_eq_true. eapply list_elem_of_lookup_2, Hlabel.
  - exists s. rewrite Nat2Z.id. split; [reflexivity|]. split; [lia|assumption].
Qed.

Lemma model_inputs_app evs evs' :
  model_inputs (evs ++ evs') = model_inputs evs ++ model_inputs evs'.
Proof. apply omap_app. Qed.

(** ** [/predict] and [/recommend] *)

Section Predict.

Variable float_of_string : string → option float.
Variable float_repr : float → string.

Ltac enter_predict :=
  unfold predict; run_py; cbv [is_None orb request_json get];
  cbv [mbind Py_bind exn_bind lift].

(** The guard fails: the view answers before it evaluates anything else. *)
Lemma predict_guard req p :
  absent p →
  predict float_of_string float_repr req p =
    (inr (Response (error_body "Model not loaded.") 500), p).
Proof.
  intros Ha. destruct p as [m encs evs]. unfold predict. run_py.
  destruct Ha as [Ha|Ha]; cbn in Ha; subst; [|destruct m]; reflexivity.
Qed.

Lemma recommend_form_guard p :
  absent p →
  recommend_form p =
    (inr (Response
            (RenderTemplate "error.html"
               {[ "message" := TStr "Application assets (model/encoders) failed to load. Please check server logs." ]})
            500), p).
Proof.
  intros Ha. destruct p as [m encs evs]. unfold recommend_form. run_py.
  destruct Ha as [Ha|Ha]; cbn in Ha; subst; [|destruct m]; reflexivity.
Qed.

(** A conversion raises: the view goes to its [except] clauses with the
    exception of the first conversion that does, the state untouched. *)
Lemma predict_coercion_raises clf encs evs req d e :
  request_json req = inr (JDict d) →
  coerce_fields float_of_string d numeric_fields = inl e →
  predict float_of_string float_repr req (Process (Some clf) (Some encs) evs) =
    predict_except e (Process (Some clf) (Some encs) evs).
Proof.
  destruct req as [body]. cbn [request_json]. intros ->.
  unfold numeric_fields. cbn [coerce_fields]. cbv [mbind exn_bind].
  enter_predict.
  repeat match goal with
  | |- context [py_float float_of_string (dict_get d ?key)] =>
      destruct (py_float float_of_string (dict_get d key));
      [intros [= ->]; reflexivity|]
  end.
  discriminate.
Qed.

Section Coerced.

Variables (clf : Classifier) (encs : gmap string Encoder) (evs : list event).
Variables (req : request) (d : gmap string pyval).
Variables (soil_enc crop_enc : Encoder).
Variables (temp moisture ph nitrogen phosphorous potassium carbon : float).

Hypothesis Hbody : request_json req = inr (JDict d).
Hypothesis Hsoil_enc : encs !! "Soil" = Some soil_enc.
Hypothesis Hcrop_enc : encs !! "Crop" = Some crop_enc.
Hypothesis Htemp : py_float float_of_string (dict_get d "Temperature") = inr temp.
Hypothesis Hmoisture : py_float float_of_string (dict_get d "Moisture") = inr moisture.
Hypothesis Hph : py_float float_of_string (dict_get d "PH") = inr ph.
Hypothesis Hnitrogen : py_float float_of_string (dict_get d "Nitrogen") = inr nitrogen.
Hypothesis Hphosphorous : py_float float_of_string (dict_get d "Phosphorous") = inr phosphorous.
Hypothesis Hpotassium : py_float float_of_string (dict_get d "Potassium") = inr potassium.
Hypothesis Hcarbon : py_float float_of_string (dict_get d "Carbon") = inr carbon.

Ltac past_coercion :=
  destruct req as [body]; cbn [request_json] in Hbody; subst body;
  enter_predict;
  rewrite Htemp, Hmoisture, Hph, Hnitrogen, Hphosphorous, Hpotassium, Hcarbon;
  rewrite (encoder_item_found "Soil" soil_enc _ _ _ Hsoil_enc).

Lemma predict_soil_unknown :
  contains soil_enc (dict_get d "Soil") = false →
  predict float_of_string float_repr req (Process (Some clf) (Some encs) evs) =
    (inr (Response
            (error_body ("Unknown Soil Type: '" +:+ py_str float_repr (dict_get d "Soil") +:+ "'"))
            400),
     Process (Some clf) (Some encs) (evs ++ [EncoderLookup "Soil"])).
Proof. intros Hsoil. past_coercion. now rewrite Hsoil. Qed.

Lemma predict_crop_unknown :
  contains soil_enc (dict_get d "Soil") = true →
  contains crop_enc (dict_get d "Crop") = false →
  predict float_of_string float_repr req (Process (Some clf) (Some encs) evs) =
    (inr (Response
            (error_body ("Unknown Crop Type: '" +:+ py_str float_repr (dict_get d "Crop") +:+ "'"))
            400),
     Process (Some clf) (Some encs) (evs ++ [EncoderLookup "Soil"; EncoderLookup "Crop"])).
Proof.
  intros Hsoil Hcrop. past_coercion. rewrite Hsoil. cbn [negb].
  rewrite (encoder_item_found "Crop" crop_enc _ _ _ Hcrop_enc), Hcrop.
  cbn [negb]. now rewrite <- app_assoc.
Qed.

Lemma predict_classifies soil_code crop_code :
  transform soil_enc (dict_get d "Soil") = inr soil_code →
  transform crop_enc (dict_get d "Crop") = inr crop_code →
  let features :=
    [ [ temp; moisture; ph; nitrogen; phosphorous; potassium; carbon;
        Z_to_float soil_code; Z_to_float crop_code ] ] in
  let p' :=
    Process (Some clf) (Some encs)
      (evs ++ [ EncoderLookup "Soil"; EncoderLookup "Crop";
                EncoderLookup "Soil"; EncoderLookup "Crop";
                ModelPredict features ]) in
  predict float_of_string float_repr req (Process (Some clf) (Some encs) evs) =
    match clf_predict clf features ≫= item0 with
    | inr label =>
        (inr (Response
                (success_body (default "Unknown Fertilizer" (FERTILIZER_MAPPING !! label)))
                200), p')
    | inl e => predict_except e p'
    end.
Proof.
  intros Hsoil_code Hcrop_code features p'.
  destruct (transform_inr _ _ _ Hsoil_code) as [Hsoil _].
  destruct (transform_inr _ _ _ Hcrop_code) as [Hcrop _].
  past_coercion. rewrite Hsoil. cbn [negb].
  rewrite (encoder_item_found "Crop" crop_enc _ _ _ Hcrop_enc), Hcrop. cbn [negb].
  rewrite (encoder_item_found "Soil" soil_enc _ _ _ Hsoil_enc), Hsoil_code.
  rewrite (encoder_item_found "Crop" crop_enc _ _ _ Hcrop_enc), Hcrop_code.
  unfold model_predict. run_py. rewrite <- !app_assoc. cbn [app].
  fold features. fold p'.
  destruct (clf_predict clf features) as [e|[|label rest]]; reflexivity.
Qed.

(** C1. For a record that passes validation, [predict] invokes the
    classifier exactly once, on a batch of one row of nine numbers in the
    order temperature, moisture, pH, nitrogen, phosphorous, potassium,
    carbon, soil code, crop code, the two codes being what the encoders'
    [transform] gives for the validated soil and crop values.  A soil and
    a crop that are labels of their encoders are such values, and their
    codes are their positions in [classes_]. *)
Theorem predict_feature_vector :
  (∀ soil crop,
     dict_get d "Soil" = PStr soil → soil ∈ classes_ soil_enc →
     dict_get d "Crop" = PStr crop → crop ∈ classes_ crop_enc →
     ∃ soil_code crop_code,
       transform soil_enc (dict_get d "Soil") = inr soil_code ∧
       transform crop_enc (dict_get d "Crop") = inr crop_code ∧
       classes_ soil_enc !! Z.to_nat soil_code = Some soil ∧
       classes_ crop_enc !! Z.to_nat crop_code = Some crop ∧
       let vector :=
         [ temp; moisture; ph; nitrogen; phosphorous; potassium; carbon;
           Z_to_float soil_code; Z_to_float crop_code ] in
       length vector = 9%nat ∧
       model_inputs
         (events (predict float_of_string float_repr req
                    (Process (Some clf) (Some encs) evs)).2) =
         model_inputs evs ++ [ [ vector ] ]) ∧
  (∀ soil_code crop_code,
     transform soil_enc (dict_get d "Soil") = inr soil_code →
     transform crop_enc (dict_get d "Crop") = inr crop_code →
     let vector :=
       [ temp; moisture; ph; nitrogen; phosphorous; potassium; carbon;
         Z_to_float soil_code; Z_to_float crop_code ] in
     length vector = 9%nat ∧
     model_inputs
       (events (predict float_of_string float_repr req
                  (Process (Some clf) (Some encs) evs)).2) =
       model_inputs evs ++ [ [ vector ] ]).
Proof.
  assert (Hrow : ∀ soil_code crop_code,
            transform soil_enc (dict_get d "Soil") = inr soil_code →
            transform crop_enc (dict_get d "Crop") = inr crop_code →
            model_inputs
              (events (predict float_of_string float_repr req
                         (Process (Some clf) (Some encs) evs)).2) =
              model_inputs evs ++
              [ [ [ temp; moisture; ph; nitrogen; phosphorous; potassium; carbon;
                    Z_to_float soil_code; Z_to_float crop_code ] ] ]).
  { intros soil_code crop_code Hi Hi'.
    rewrite (predict_classifies _ _ Hi Hi'). cbv zeta.
    match goal with
    | |- context [clf_predict clf ?rows ≫= item0] =>
        destruct (clf_predict clf rows ≫= item0) as [e|label]
    end.
    - unfold predict_except. destruct (is_TypeError_or_ValueError e); run_py;
        rewrite !model_inputs_app; cbn; now rewrite ?app_nil_r.
    - cbn [snd events]. now rewrite model_inputs_app. }
  split.
  - intros soil crop Hsoil Hs Hcrop Hc.
    destruct (transform_label soil_enc soil Hs) as (i & Hi & Hsi).
    destruct (transform_label crop_enc crop Hc) as (j & Hj & Hcj).
    rewrite <- Hsoil in Hi. rewrite <- Hcrop in Hj.
    exists (Z.of_nat i), (Z.of_nat j). rewrite !Nat2Z.id.
    repeat split; try assumption. now apply Hrow.
  - intros soil_code crop_code Hi Hi' vector. split; [reflexivity|]. now apply Hrow.
Qed.

(** X23. With the seven numeric fields converted: a soil value that
    passes the membership test of the soil encoder with a crop value that
    fails the crop encoder's gives status 400 and the message
    [Unknown Crop Type: '<crop>']; a soil value that fails the soil
    encoder's test with a crop value that passes gives status 400 and
    [Unknown Soil Type: '<soil>']. *)
Theorem predict_unknown_category :
  (contains soil_enc (dict_get d "Soil") = true →
   contains crop_enc (dict_get d "Crop") = false →
   (predict float_of_string float_repr req (Process (Some clf) (Some encs) evs)).1 =
     inr (Response
            (error_body ("Unknown Crop Type: '" +:+ py_str float_repr (dict_get d "Crop") +:+ "'"))
            400)) ∧
  (contains soil_enc (dict_get d "Soil") = false →
   contains crop_enc (dict_get d "Crop") = true →
   (predict float_of_string float_repr req (Process (Some clf) (Some encs) evs)).1 =
     inr (Response
            (error_body ("Unknown Soil Type: '" +:+ py_str float_repr (dict_get d "Soil") +:+ "'"))
            400)).
Proof.
  split.
  - intros Hsoil Hcrop. now rewrite (predict_crop_unknown Hsoil Hcrop).
  - intros Hsoil _. now rewrite (predict_soil_unknown Hsoil).
Qed.

(** C10, as amended.  With the seven numeric fields converted, a body
    without the "Soil" key is answered with status 400 and
    [Unknown Soil Type: 'None'].  The soil value is checked first: a body
    without the "Crop" key is answered with status 400 and
    [Unknown Crop Type: 'None'] when its soil value passes the membership
    test, and with status 400 and [Unknown Soil Type: '<soil>'] when it
    does not.  In each case the answer is not the invalid-input one. *)
Theorem predict_missing_category :
  (d !! "Soil" = None →
   (predict float_of_string float_repr req (Process (Some clf) (Some encs) evs)).1 =
     inr (Response (error_body "Unknown Soil Type: 'None'") 400)) ∧
  (d !! "Crop" = None →
   contains soil_enc (dict_get d "Soil") = true →
   (predict float_of_string float_repr req (Process (Some clf) (Some encs) evs)).1 =
     inr (Response (error_body "Unknown Crop Type: 'None'") 400)) ∧
  (d !! "Crop" = None →
   contains soil_enc (dict_get d "Soil") = false →
   (predict float_of_string float_repr req (Process (Some clf) (Some encs) evs)).1 =
     inr (Response
            (error_body ("Unknown Soil Type: '" +:+ py_str float_repr (dict_get d "Soil") +:+ "'"))
            400)) ∧
  (d !! "Soil" = None ∨ d !! "Crop" = None →
   (predict float_of_string float_repr req (Process (Some clf) (Some encs) evs)).1 ≠
     inr (Response (error_body INVALID_INPUT) 400)).
Proof.
  assert (Hsoil_none : d !! "Soil" = None →
            predict float_of_string float_repr req (Process (Some clf) (Some encs) evs) =
              (inr (Response (error_body "Unknown Soil Type: 'None'") 400),
               Process (Some clf) (Some encs) (evs ++ [EncoderLookup "Soil"]))).
  { intros Hd. rewrite predict_soil_unknown; unfold dict_get; now rewrite Hd. }
  assert (Hcrop_none : d !! "Crop" = None →
            contains soil_enc (dict_get d "Soil") = true →
            predict float_of_string float_repr req (Process (Some clf) (Some encs) evs) =
              (inr (Response (error_body "Unknown Crop Type: 'None'") 400),
               Process (Some clf) (Some encs)
                 (evs ++ [EncoderLookup "Soil"; EncoderLookup "Crop"]))).
  { intros Hd Hsoil. rewrite (predict_crop_unknown Hsoil); unfold dict_get; now rewrite Hd. }
  split; [|split; [|split]].
  - intros Hd. now rewrite Hsoil_none.
  - intros Hd Hsoil. now rewrite Hcrop_none.
  - intros _ Hsoil. now rewrite (predict_soil_unknown Hsoil).
  - intros Hd Hinvalid.
    assert (∃ message,
              (predict float_of_string float_repr req
                 (Process (Some clf) (Some encs) evs)).1 =
                inr (Response (error_body ("Unknown " +:+ message)) 400))
      as [message Hunknown].
    { destruct (contains soil_enc (dict_get d "Soil")) eqn:Hsoil.
      - destruct Hd as [Hd|Hd].
        + unfold dict_get in Hsoil. now rewrite Hd in Hsoil.
        + exists "Crop Type: 'None'". now rewrite (Hcrop_none Hd eq_refl).
      - exists ("Soil Type: '" +:+ py_str float_repr (dict_get d "Soil") +:+ "'").
        now rewrite (predict_soil_unknown Hsoil). }
    rewrite Hunknown in Hinvalid.
    apply (f_equal (λ r, match r with
                         | inr (Response (Jsonify obj) _) => obj !! "error"
                         | _ => None
                         end)) in Hinvalid.
    unfold error_body in Hinvalid. rewrite !lookup_singleton_eq in Hinvalid.
    discriminate Hinvalid.
Qed.

(** C6. When the classifier answers with a label, the response is a
    success (status 200) carrying the table's name for a label from 0 to
    9 and "Unknown Fertilizer" for any other label. *)
Theorem predict_name_lookup soil_code crop_code label rest :
  transform soil_enc (dict_get d "Soil") = inr soil_code →
  transform crop_enc (dict_get d "Crop") = inr crop_code →
  clf_predict clf
    [ [ temp; moisture; ph; nitrogen; phosphorous; potassium; carbon;
        Z_to_float soil_code; Z_to_float crop_code ] ] = inr (label :: rest) →
  ∃ name,
    (predict float_of_string float_repr req (Process (Some clf) (Some encs) evs)).1 =
      inr (Response (success_body name) 200) ∧
    (0 ≤ label ≤ 9 → FERTILIZER_MAPPING !! label = Some name) ∧
    (¬ (0 ≤ label ≤ 9) → name = "Unknown Fertilizer").
Proof.
  intros Hsoil_code Hcrop_code Hlabel.
  exists (default "Unknown Fertilizer" (FERTILIZER_MAPPING !! label)).
  rewrite (predict_classifies _ _ Hsoil_code Hcrop_code), Hlabel.
  split; [reflexivity|]. split.
  - intros [name ->]%FERTILIZER_MAPPING_inside. reflexivity.
  - intros ->%FERTILIZER_MAPPING_outside. reflexivity.
Qed.

End Coerced.

(** A conversion that raises [TypeError] or [ValueError] is answered with
    the one invalid-input message, whatever the fields after it hold. *)
Lemma predict_invalid_input clf encs evs req d e :
  request_json req = inr (JDict d) →
  coerce_fields float_of_string d numeric_fields = inl e →
  is_TypeError_or_ValueError e = true →
  predict float_of_string float_repr req (Process (Some clf) (Some encs) evs) =
    (inr (Response (error_body INVALID_INPUT) 400), Process (Some clf) (Some encs) evs).
Proof.
  intros Hbody Hraise He. rewrite (predict_coercion_raises _ _ _ _ _ _ Hbody Hraise).
  unfold predict_except. now rewrite He.
Qed.

(** Why a conversion raises: the value is missing or a string [float]
    rejects ([TypeError], [ValueError]), or it is an integer beyond the
    range of a float ([OverflowError]). *)
Lemma py_float_raises v e :
  py_float float_of_string v = inl e →
  (is_TypeError_or_ValueError e = true ∧
   (v = PNone ∨ ∃ s, v = PStr s ∧ float_of_string s = None)) ∨
  (exn_cls e = OverflowError ∧ ∃ n, v = PInt n).
Proof.
  destruct v as [|b|n|f|s]; cbn; try discriminate.
  - intros [= <-]. left. eauto.
  - destruct (Z_to_float n); try discriminate. intros [= <-]. right. eauto.
  - destruct (float_of_string s) eqn:Hs; [discriminate|]. intros [= <-]. left. eauto.
Qed.

(** C5. A body whose "Temperature" is the integer 10^400 and whose six
    other numeric fields are missing: the first conversion raises
    [OverflowError], which the [except (TypeError, ValueError)] clause does
    not catch, and the answer is the status 500 of the catch-all clause. *)
Theorem predict_overflow_is_unexpected clf encs evs :
  predict float_of_string float_repr
    (Request (inr (JDict {[ "Temperature" := PInt (10 ^ 400) ]})))
    (Process (Some clf) (Some encs) evs) =
    (inr (Response
            (error_body
               "Unexpected server error during prediction: int too large to convert to float")
            500),
     Process (Some clf) (Some encs)
       (evs ++ [Stdout "Prediction error: int too large to convert to float"])).
Proof.
  assert (Hraise : coerce_fields float_of_string {[ "Temperature" := PInt (10 ^ 400) ]}
                     numeric_fields =
                   inl (Raise OverflowError "int too large to convert to float"))
    by now vm_compute.
  now rewrite (predict_coercion_raises clf encs evs
                 (Request (inr (JDict {[ "Temperature" := PInt (10 ^ 400) ]})))
                 _ _ eq_refl Hraise).
Qed.

(** C4. The spec's scenario with the crop sent as "Wheat" followed by a
    NUL character, which is no label of the crop encoder: the membership
    test takes it for "Wheat".  With label arrays of unicode dtype the
    answer is a recommendation, status 200, the classifier invoked with
    the code of "Wheat"; with label arrays of dtype [object] it is the
    generic invalid-input 400, from the [ValueError] of [transform].  In
    neither case is it the error that names the crop. *)
Theorem predict_accepts_padded_label :
  let d := <["Nitrogen" := PInt 20]> (sample_record "Loamy" ("Wheat" +:+ NUL)) in
  ("Wheat" +:+ NUL) ∉ classes_ sample_crop ∧
  predict float_of_string float_repr (post d) (sample_process 8) =
    (inr (Response (success_body "Urea") 200),
     Process (Some (constant_classifier 8)) (Some sample_encoders)
       [ EncoderLookup "Soil"; EncoderLookup "Crop";
         EncoderLookup "Soil"; EncoderLookup "Crop";
         ModelPredict
           [ [ Z_to_float 25; Z_to_float 60; dyadic 13 (-1); Z_to_float 20; Z_to_float 15;
               Z_to_float 10; dyadic 5404319552844595 (-52);
               Z_to_float 1; Z_to_float 2 ] ] ]) ∧
  (predict float_of_string float_repr (post d)
     (Process (Some (constant_classifier 8)) (Some object_encoders) [])).1 =
    inr (Response (error_body INVALID_INPUT) 400).
Proof.
  intros d. split; [|split].
  - intros Hin%list_elem_of_In. cbn in Hin.
    destruct Hin as [H|[H|[H|[]]]]; discriminate H.
  - vm_compute. reflexivity.
  - vm_compute. reflexivity.
Qed.

(** C3. While the classifier or the encoder set is [None], [/recommend]
    and [/predict] both answer with status 500 and leave the process as it
    was, its events included: no encoder was looked up and the classifier
    was not invoked. *)
Theorem absent_routes_answer_500 req p :
  absent p →
  (∃ page, recommend_form p = (inr (Response page 500), p)) ∧
  predict float_of_string float_repr req p =
    (inr (Response (error_body "Model not loaded.") 500), p).
Proof.
  intros Ha. split.
  - eexists. now apply recommend_form_guard.
  - now apply predict_guard.
Qed.

Lemma read_only_predict req : read_only (predict float_of_string float_repr req).
Proof.
  unfold predict.
  apply read_only_bind; [auto with py_read_only|intros m].
  apply read_only_bind; [auto with py_read_only|intros encs].
  apply read_only_if; [auto with py_read_only|].
  apply read_only_try; [|auto with py_read_only].
  repeat (apply read_only_bind; [auto with py_read_only|intros ?]).
  apply read_only_if; [auto with py_read_only|].
  repeat (apply read_only_bind; [auto with py_read_only|intros ?]).
  apply read_only_if; [auto with py_read_only|].
  cbv zeta.
  repeat (apply read_only_bind; [auto with py_read_only|intros ?]).
  auto with py_read_only.
Qed.

(** C9. [predict] leaves [model] and [label_encoders] as they were, and
    two invocations on the same request in states with the same [model]
    and [label_encoders] give the same result and add the same events. *)
Theorem predict_deterministic req p p' :
  model p = model p' →
  label_encoders p = label_encoders p' →
  (predict float_of_string float_repr req p).1 =
    (predict float_of_string float_repr req p').1 ∧
  model (predict float_of_string float_repr req p).2 = model p ∧
  label_encoders (predict float_of_string float_repr req p).2 = label_encoders p ∧
  ∃ new,
    events (predict float_of_string float_repr req p).2 = events p ++ new ∧
    events (predict float_of_string float_repr req p').2 = events p' ++ new.
Proof.
  destruct p as [m encs evs], p' as [m' encs' evs']. cbn. intros <- <-.
  destruct (read_only_predict req m encs) as (r & new & Hrun).
  rewrite !Hrun. cbn. repeat split. now exists new.
Qed.

Lemma answers_predict_except e : answers well_formed (predict_except e).
Proof.
  unfold predict_except. apply answers_if.
  - apply answers_ret. right. cbn. eauto.
  - apply answers_bind; [apply answers_print|intros _].
    apply answers_ret. right. cbn. eauto.
Qed.

Lemma answers_predict req : answers well_formed (predict float_of_string float_repr req).
Proof.
  unfold predict.
  apply answers_bind; [apply answers_get_model|intros m].
  apply answers_bind; [apply answers_get_label_encoders|intros encs].
  apply answers_if; [apply answers_ret; right; cbn; eauto|].
  apply answers_try; [|apply answers_predict_except].
  repeat (apply returns_bind; intros ?).
  apply returns_if; [apply returns_ret; right; cbn; eauto|].
  repeat (apply returns_bind; intros ?).
  apply returns_if; [apply returns_ret; right; cbn; eauto|].
  cbv zeta.
  repeat (apply returns_bind; intros ?).
  apply returns_ret. left. cbn. eauto.
Qed.

(** C8, as amended.  [/predict] raises nothing: it answers every request,
    in every state, with status 200 and a success object, or with status
    400 or 500 and a JSON object whose only key is [error], holding a
    message string.  [/recommend] without its assets answers with status
    500 and the rendered [error.html] page, which is not a JSON object. *)
Theorem failure_responses req p :
  (∃ r p', predict float_of_string float_repr req p = (inr r, p') ∧ well_formed r) ∧
  (absent p →
   ∃ message,
     (recommend_form p).1 =
       inr (Response (RenderTemplate "error.html" {[ "message" := TStr message ]}) 500)).
Proof.
  split.
  - apply answers_predict.
  - intros Ha. rewrite (recommend_form_guard p Ha). cbn. eauto.
Qed.

End Predict.

(** ** The properties on the sample data *)

(** The spec's scenarios, run from a process that loaded both artifacts. *)

Example scenario_known_labels :
  (predict digits_to_float float_class_name
     (post (sample_record "Loamy" "Wheat")) loaded_process).1 =
    inr (Response (success_body "Urea") 200).
Proof. now vm_compute. Qed.

Example scenario_martian_soil :
  (predict digits_to_float float_class_name
     (post (sample_record "Martian" "Wheat")) loaded_process).1 =
    inr (Response (error_body "Unknown Soil Type: 'Martian'") 400).
Proof. now vm_compute. Qed.

Example scenario_temperature_abc :
  (predict digits_to_float float_class_name
     (post (<["Temperature" := PStr "abc"]> (sample_record "Loamy" "Wheat")))
     loaded_process).1 =
    inr (Response (error_body INVALID_INPUT) 400).
Proof. now vm_compute. Qed.

Example scenario_body_is_a_list :
  (predict digits_to_float float_class_name (Request (inr (JOther "list")))
     loaded_process).1 =
    inr (Response
           (error_body
              "Unexpected server error during prediction: 'list' object has no attribute 'get'")
           500).
Proof. now vm_compute. Qed.

Example scenario_recommend_form :
  (recommend_form loaded_process).1 =
    inr (Response
           (RenderTemplate "recommend.html"
              {[ "soil_options" := TList [ "Clayey"; "Loamy"; "Sandy" ];
                 "crop_options" := TList [ "Maize"; "Rice"; "Wheat" ] ]})
           200).
Proof. now vm_compute. Qed.

Lemma load_assets_failure_clears_both_witness :
  let fs := {| model_file := Pickled (constant_classifier 8);
               encoder_file :=
                 Unloadable (Raise (OtherException "UnpicklingError") "invalid load key") |} in
  (load_assets fs (sample_process 2)).1 = inr tt ∧
  model (load_assets fs (sample_process 2)).2 = None ∧
  label_encoders (load_assets fs (sample_process 2)).2 = None.
Proof.
  intros fs. apply (load_assets_failure_clears_both fs (sample_process 2)). reflexivity.
Defined.

Lemma options_are_the_class_lists_witness :
  (get_categorical_options (sample_process 8)).1 =
    inr {[ "Soil" := [ "Clayey"; "Loamy"; "Sandy" ]; "Crop" := [ "Maize"; "Rice"; "Wheat" ] ]} ∧
  get_categorical_options initial = (inr {[ "Soil" := []; "Crop" := [] ]}, initial).
Proof.
  split.
  - apply (proj1 (options_are_the_class_lists (sample_process 8))
             sample_encoders sample_soil sample_crop); reflexivity.
  - apply (proj2 (proj2 (options_are_the_class_lists initial))).
    + apply reachable_initial.
    + left. reflexivity.
Defined.

Lemma absent_routes_answer_500_witness :
  (∃ page, recommend_form initial = (inr (Response page 500), initial)) ∧
  predict digits_to_float float_class_name (post (sample_record "Loamy" "Wheat")) initial =
    (inr (Response (error_body "Model not loaded.") 500), initial).
Proof.
  apply (absent_routes_answer_500 digits_to_float float_class_name
           (post (sample_record "Loamy" "Wheat")) initial).
  left. reflexivity.
Defined.

Lemma predict_feature_vector_witness :
  ∃ soil_code crop_code,
    transform sample_soil (PStr "Loamy") = inr soil_code ∧
    transform sample_crop (PStr "Wheat") = inr crop_code ∧
    [ "Clayey"; "Loamy"; "Sandy" ] !! Z.to_nat soil_code = Some "Loamy" ∧
    [ "Maize"; "Rice"; "Wheat" ] !! Z.to_nat crop_code = Some "Wheat" ∧
    let vector :=
      [ Z_to_float 25; Z_to_float 60; dyadic 13 (-1); Z_to_float 20; Z_to_float 15;
        Z_to_float 10; dyadic 5404319552844595 (-52);
        Z_to_float soil_code; Z_to_float crop_code ] in
    length vector = 9%nat ∧
    model_inputs
      (events (predict digits_to_float float_class_name
                 (post (sample_record "Loamy" "Wheat")) (sample_process 8)).2) =
      [ [ vector ] ].
Proof.
  refine (proj1 (predict_feature_vector digits_to_float float_class_name
                   (constant_classifier 8) sample_encoders []
                   (post (sample_record "Loamy" "Wheat")) (sample_record "Loamy" "Wheat")
                   sample_soil sample_crop
                   (Z_to_float 25) (Z_to_float 60) (dyadic 13 (-1)) (Z_to_float 20)
                   (Z_to_float 15) (Z_to_float 10) (dyadic 5404319552844595 (-52))
                   _ _ _ _ _ _ _ _ _ _) "Loamy" "Wheat" _ _ _ _);
    try (vm_compute; reflexivity).
  - apply list_elem_of_In. cbn. tauto.
  - apply list_elem_of_In. cbn. tauto.
Defined.

Lemma predict_unknown_category_witness :
  (predict digits_to_float float_class_name
     (post (sample_record "Loamy" "Quinoa")) (sample_process 8)).1 =
    inr (Response (error_body "Unknown Crop Type: 'Quinoa'") 400) ∧
  (predict digits_to_float float_class_name
     (post (sample_record "Martian" "Wheat")) (sample_process 8)).1 =
    inr (Response (error_body "Unknown Soil Type: 'Martian'") 400).
Proof.
  split.
  - refine (proj1 (predict_unknown_category digits_to_float float_class_name
                     (constant_classifier 8) sample_encoders []
                     (post (sample_record "Loamy" "Quinoa")) (sample_record "Loamy" "Quinoa")
                     sample_soil sample_crop
                     (Z_to_float 25) (Z_to_float 60) (dyadic 13 (-1)) (Z_to_float 20)
                     (Z_to_float 15) (Z_to_float 10) (dyadic 5404319552844595 (-52))
                     _ _ _ _ _ _ _ _ _ _) _ _);
      vm_compute; reflexivity.
  - refine (proj2 (predict_unknown_category digits_to_float float_class_name
                     (constant_classifier 8) sample_encoders []
                     (post (sample_record "Martian" "Wheat")) (sample_record "Martian" "Wheat")
                     sample_soil sample_crop
                     (Z_to_float 25) (Z_to_float 60) (dyadic 13 (-1)) (Z_to_float 20)
                     (Z_to_float 15) (Z_to_float 10) (dyadic 5404319552844595 (-52))
                     _ _ _ _ _ _ _ _ _ _) _ _);
      vm_compute; reflexivity.
Defined.

Lemma predict_missing_category_witness :
  (predict digits_to_float float_class_name
     (post (<["Crop" := PStr "Wheat"]> sample_numbers)) (sample_process 8)).1 =
    inr (Response (error_body "Unknown Soil Type: 'None'") 400) ∧
  (predict digits_to_float float_class_name
     (post (<["Soil" := PStr "Loamy"]> sample_numbers)) (sample_process 8)).1 =
    inr (Response (error_body "Unknown Crop Type: 'None'") 400) ∧
  (predict digits_to_float float_class_name
     (post (<["Soil" := PStr "Martian"]> sample_numbers)) (sample_process 8)).1 =
    inr (Response (error_body "Unknown Soil Type: 'Martian'") 400).
Proof.
  split; [|split].
  - refine (proj1 (predict_missing_category digits_to_float float_class_name
                     (constant_classifier 8) sample_encoders []
                     (post (<["Crop" := PStr "Wheat"]> sample_numbers))
                     (<["Crop" := PStr "Wheat"]> sample_numbers)
                     sample_soil sample_crop
                     (Z_to_float 25) (Z_to_float 60) (dyadic 13 (-1)) (Z_to_float 20)
                     (Z_to_float 15) (Z_to_float 10) (dyadic 5404319552844595 (-52))
                     _ _ _ _ _ _ _ _ _ _) _);
      vm_compute; reflexivity.
  - refine (proj1 (proj2 (predict_missing_category digits_to_float float_class_name
                     (constant_classifier 8) sample_encoders []
                     (post (<["Soil" := PStr "Loamy"]> sample_numbers))
                     (<["Soil" := PStr "Loamy"]> sample_numbers)
                     sample_soil sample_crop
                     (Z_to_float 25) (Z_to_float 60) (dyadic 13 (-1)) (Z_to_float 20)
                     (Z_to_float 15) (Z_to_float 10) (dyadic 5404319552844595 (-52))
                     _ _ _ _ _ _ _ _ _ _)) _ _);
      vm_compute; reflexivity.
  - refine (proj1 (proj2 (proj2 (predict_missing_category digits_to_float float_class_name
                     (constant_classifier 8) sample_encoders []
                     (post (<["Soil" := PStr "Martian"]> sample_numbers))
                     (<["Soil" := PStr "Martian"]> sample_numbers)
                     sample_soil sample_crop
                     (Z_to_float 25) (Z_to_float 60) (dyadic 13 (-1)) (Z_to_float 20)
                     (Z_to_float 15) (Z_to_float 10) (dyadic 5404319552844595 (-52))
                     _ _ _ _ _ _ _ _ _ _))) _ _);
      vm_compute; reflexivity.
Defined.

(** C10, as the claim has it, fails when the soil value is unknown too: a
    body without the "Crop" key and with soil "Martian" is answered with
    the error that names the soil, not the crop. *)
Lemma missing_crop_with_unknown_soil :
  ¬ (∀ d : gmap string pyval,
       (∃ numbers, coerce_fields digits_to_float d numeric_fields = inr numbers) →
       d !! "Crop" = None →
       (predict digits_to_float float_class_name (post d) (sample_process 8)).1 =
         inr (Response (error_body "Unknown Crop Type: 'None'") 400)).
Proof.
  intros Hclaim.
  specialize (Hclaim (<["Soil" := PStr "Martian"]> sample_numbers)).
  assert ((predict digits_to_float float_class_name
             (post (<["Soil" := PStr "Martian"]> sample_numbers)) (sample_process 8)).1 =
          inr (Response (error_body "Unknown Soil Type: 'Martian'") 400)) as Hrun
    by (vm_compute; reflexivity).
  rewrite Hrun in Hclaim.
  assert (inr (Response (error_body "Unknown Soil Type: 'Martian'") 400) =
          (inr (Response (error_body "Unknown Crop Type: 'None'") 400) : exn + response))
    as Heq.
  { apply Hclaim; [eexists; vm_compute; reflexivity|vm_compute; reflexivity]. }
  apply (f_equal (λ r, match r with
                       | inr (Response (Jsonify obj) _) => obj !! "error"
                       | _ => None
                       end)) in Heq.
  unfold error_body in Heq. rewrite !lookup_singleton_eq in Heq.
  discriminate Heq.
Qed.

Lemma predict_name_lookup_witness :
  ∃ name,
    (predict digits_to_float float_class_name
       (post (sample_record "Loamy" "Wheat")) (sample_process 11)).1 =
      inr (Response (success_body name) 200) ∧
    (0 ≤ 11 ≤ 9 → FERTILIZER_MAPPING !! 11 = Some name) ∧
    (¬ (0 ≤ 11 ≤ 9) → name = "Unknown Fertilizer").
Proof.
  refine (predict_name_lookup digits_to_float float_class_name
           (constant_classifier 11) sample_encoders []
           (post (sample_record "Loamy" "Wheat")) (sample_record "Loamy" "Wheat")
           sample_soil sample_crop
           (Z_to_float 25) (Z_to_float 60) (dyadic 13 (-1)) (Z_to_float 20)
           (Z_to_float 15) (Z_to_float 10) (dyadic 5404319552844595 (-52))
           _ _ _ _ _ _ _ _ _ _ 1 2 11 [] _ _ _);
    vm_compute; reflexivity.
Defined.

Lemma predict_deterministic_witness :
  let req := post (sample_record "Loamy" "Wheat") in
  let p := sample_process 8 in
  let p' := (predict digits_to_float float_class_name req p).2 in
  (predict digits_to_float float_class_name req p).1 =
    (predict digits_to_float float_class_name req p').1 ∧
  model (predict digits_to_float float_class_name req p).2 = model p ∧
  label_encoders (predict digits_to_float float_class_name req p).2 = label_encoders p ∧
  ∃ new,
    events (predict digits_to_float float_class_name req p).2 = events p ++ new ∧
    events (predict digits_to_float float_class_name req p').2 = events p' ++ new.
Proof.
  intros req p p'.
  apply (predict_deterministic digits_to_float float_class_name req p p'); reflexivity.
Defined.

Lemma failure_responses_witness :
  (∃ r p', predict digits_to_float float_class_name (post ∅) initial = (inr r, p') ∧
           well_formed r) ∧
  ∃ message,
    (recommend_form initial).1 =
      inr (Response (RenderTemplate "error.html" {[ "message" := TStr message ]}) 500).
Proof.
  split.
  - apply (proj1 (failure_responses digits_to_float float_class_name (post ∅) initial)).
  - apply (proj2 (failure_responses digits_to_float float_class_name (post ∅) initial)).
    left. reflexivity.
Defined.

(** C8, as the spec has it, fails on [/recommend]: without its assets the
    view answers with status 500 and a rendered page, which is no JSON
    object and has no [error] key. *)
Lemma degraded_recommend_is_not_json :
  ¬ (∀ p r, (recommend_form p).1 = inr r → status r ≠ 200 → json_error r).
Proof.
  intros Hclaim.
  destruct (Hclaim initial _ eq_refl) as (obj & Hbody & _); [discriminate|].
  discriminate Hbody.
Qed.

(** * Further properties *)

(** ** Loading and the main block *)

Lemma load_assets_loaded fs clf encs p :
  model_file fs = Pickled clf →
  encoder_file fs = Pickled encs →
  load_assets fs p =
    (inr tt,
     Process (Some clf) (Some encs)
       (events p ++
        [Stdout ("✔ Model and Label Encoders loaded successfully." +:+
                 String "010"%char EmptyString)])).
Proof.
  intros Hm He. unfold load_assets. rewrite Hm, He.
  destruct p as [m0 e0 evs]. now run_py.
Qed.

(** X1. When both artifacts unpickle, [load_assets] sets [model] and
    [label_encoders] to the two objects, whatever they held before, and
    prints the one success line. *)
Theorem load_assets_sets_both fs clf encs p :
  model_file fs = Pickled clf →
  encoder_file fs = Pickled encs →
  load_assets fs p =
    (inr tt,
     Process (Some clf) (Some encs)
       (events p ++
        [Stdout ("✔ Model and Label Encoders loaded successfully." +:+
                 String "010"%char EmptyString)])).
Proof. apply load_assets_loaded. Qed.

(** X2. [load_assets] raises nothing, the globals it leaves do not depend
    on the ones it found, and they are both set exactly when both
    artifacts load and both [None] otherwise. *)
Theorem load_assets_replaces_state fs p p' :
  (load_assets fs p).1 = inr tt ∧
  model (load_assets fs p).2 = model (load_assets fs p').2 ∧
  label_encoders (load_assets fs p).2 = label_encoders (load_assets fs p').2 ∧
  (loads fs = true ↔ is_Some (model (load_assets fs p).2)) ∧
  (loads fs = true ↔ is_Some (label_encoders (load_assets fs p).2)).
Proof.
  destruct (loads fs) eqn:Hl.
  - unfold loads in Hl.
    destruct (model_file fs) as [| |clf] eqn:Hm; try discriminate.
    destruct (encoder_file fs) as [| |encs] eqn:He; try discriminate.
    destruct (load_assets_success fs clf encs p Hm He) as (-> & -> & ->).
    destruct (load_assets_success fs clf encs p' Hm He) as (_ & -> & ->).
    repeat split; eauto.
  - rewrite (load_assets_failure fs p Hl), (load_assets_failure fs p' Hl). cbn.
    repeat split; try discriminate; intros [? [=]].
Qed.

(** X3. The classifier is loaded first: when its artifact is missing or
    does not unpickle, what [load_assets] does (state and printed lines)
    is the same whatever is at the encoders' path. *)
Theorem load_assets_model_first fs fs' p :
  model_file fs = model_file fs' →
  (∀ clf, model_file fs ≠ Pickled clf) →
  load_assets fs p = load_assets fs' p.
Proof.
  intros Hsame Hfail. unfold load_assets. rewrite <- Hsame.
  destruct (model_file fs) as [|e|clf]; [reflexivity|reflexivity|].
  now destruct (Hfail clf).
Qed.

(** X4. A missing artifact file, the classifier's or (the classifier
    loaded) the encoders', is reported by the same two lines, which name
    both paths; any other failure by one line with the exception's
    message. *)
Theorem load_assets_failure_report fs p :
  (model_file fs = NoSuchFile ∨
   ((∃ clf, model_file fs = Pickled clf) ∧ encoder_file fs = NoSuchFile) →
   events (load_assets fs p).2 =
     events p ++
     [ Stdout "✘ Error: One or both files (decision_tree_model.pkl, label_encoders.pkl) not found.";
       Stdout "Please ensure the model and encoder files are in the same directory as app.py." ]) ∧
  (∀ e,
     is_FileNotFoundError e = false →
     model_file fs = Unloadable e ∨
     ((∃ clf, model_file fs = Pickled clf) ∧ encoder_file fs = Unloadable e) →
     events (load_assets fs p).2 =
       events p ++ [ Stdout ("✘ Error loading assets: " +:+ exn_msg e) ]).
Proof.
  destruct p as [m0 e0 evs]. unfold load_assets. split.
  - intros [->|[[clf ->] ->]]; unfold open_and_load; run_py; cbn;
      now rewrite <- app_assoc.
  - intros e He [->|[[clf ->] ->]]; unfold open_and_load; run_py;
      now rewrite He.
Qed.

Lemma startup_run fs p :
  startup fs p =
    (inr tt,
     Process (model (load_assets fs p).2) (label_encoders (load_assets fs p).2)
       (events (load_assets fs p).2 ++
        [ Stdout "🚀 Fertilizer Recommendation System starting...";
          Stdout ("🌐 Open your browser and visit: http://127.0.0.1:5000" +:+
                  String "010"%char EmptyString) ])).
Proof.
  unfold startup. cbv [mbind Py_bind].
  destruct (loads fs) eqn:Hl.
  - unfold loads in Hl.
    destruct (model_file fs) as [| |clf] eqn:Hm; try discriminate.
    destruct (encoder_file fs) as [| |encs] eqn:He; try discriminate.
    rewrite (load_assets_loaded fs clf encs p Hm He).
    unfold print, emit. cbn. now rewrite <- !app_assoc.
  - rewrite (load_assets_failure fs p Hl).
    unfold print, emit. cbn. now rewrite <- !app_assoc.
Qed.

(** X5. The main block goes through whether or not the artifacts load: it
    raises nothing, ends with the two banner lines, and leaves the
    globals as [load_assets] set them. *)
Theorem startup_goes_through fs p :
  startup fs p =
    (inr tt,
     Process (model (load_assets fs p).2) (label_encoders (load_assets fs p).2)
       (events (load_assets fs p).2 ++
        [ Stdout "🚀 Fertilizer Recommendation System starting...";
          Stdout ("🌐 Open your browser and visit: http://127.0.0.1:5000" +:+
                  String "010"%char EmptyString) ])).
Proof. apply startup_run. Qed.

(** ** [/recommend] *)

Lemma recommend_form_options clf d evs soil_enc crop_enc :
  d !! "Soil" = Some soil_enc →
  d !! "Crop" = Some crop_enc →
  recommend_form (Process (Some clf) (Some d) evs) =
    (inr (Response
            (RenderTemplate "recommend.html"
               {[ "soil_options" := TList (classes_ soil_enc);
                  "crop_options" := TList (classes_ crop_enc) ]})
            200),
     Process (Some clf) (Some d) (evs ++ [EncoderLookup "Soil"; EncoderLookup "Crop"])).
Proof.
  intros Hs Hc. unfold recommend_form, get_categorical_options. run_py.
  cbv [is_None orb]. run_py. rewrite (falsy_with_field d "Soil" soil_enc Hs).
  cbv [mbind Py_bind].
  rewrite (encoder_item_found "Soil" soil_enc _ _ _ Hs).
  rewrite (encoder_item_found "Crop" crop_enc _ _ _ Hc).
  rewrite <- app_assoc. reflexivity.
Qed.

(** X6. With both assets loaded and encoders for "Soil" and "Crop",
    [/recommend] answers status 200 with [recommend.html], its two option
    lists being the encoders' [classes_] in their own order; it looks up
    each encoder once and leaves the globals alone. *)
Theorem recommend_form_renders_options clf d evs soil_enc crop_enc :
  d !! "Soil" = Some soil_enc →
  d !! "Crop" = Some crop_enc →
  recommend_form (Process (Some clf) (Some d) evs) =
    (inr (Response
            (RenderTemplate "recommend.html"
               {[ "soil_options" := TList (classes_ soil_enc);
                  "crop_options" := TList (classes_ crop_enc) ]})
            200),
     Process (Some clf) (Some d) (evs ++ [EncoderLookup "Soil"; EncoderLookup "Crop"])).
Proof. apply recommend_form_options. Qed.

(** X7. An encoder set that is an empty dict passes the guard of
    [/recommend] and is then treated like no encoder set: the form is
    rendered, status 200, with two empty option lists and without any
    encoder lookup. *)
Theorem recommend_form_empty_encoder_set clf evs :
  get_categorical_options (Process (Some clf) (Some ∅) evs) =
    (inr {[ "Soil" := []; "Crop" := [] ]}, Process (Some clf) (Some ∅) evs) ∧
  recommend_form (Process (Some clf) (Some ∅) evs) =
    (inr (Response
            (RenderTemplate "recommend.html"
               {[ "soil_options" := TList []; "crop_options" := TList [] ]})
            200),
     Process (Some clf) (Some ∅) evs).
Proof. split; reflexivity. Qed.

(** X8. An encoder set that is not empty but has no "Soil" encoder makes
    [get_categorical_options], and with it [/recommend], raise
    [KeyError: 'Soil']; one with "Soil" but no "Crop" encoder,
    [KeyError: 'Crop'].  Neither view catches it. *)
Theorem recommend_form_missing_encoder clf d evs :
  d ≠ ∅ →
  (d !! "Soil" = None →
   (get_categorical_options (Process (Some clf) (Some d) evs)).1 =
     inl (Raise KeyError "'Soil'") ∧
   (recommend_form (Process (Some clf) (Some d) evs)).1 =
     inl (Raise KeyError "'Soil'")) ∧
  (is_Some (d !! "Soil") → d !! "Crop" = None →
   (get_categorical_options (Process (Some clf) (Some d) evs)).1 =
     inl (Raise KeyError "'Crop'") ∧
   (recommend_form (Process (Some clf) (Some d) evs)).1 =
     inl (Raise KeyError "'Crop'")).
Proof.
  intros Hne.
  assert (Hfalsy : falsy (Some d) = false) by now apply bool_decide_eq_false.
  split.
  - intros Hs. unfold recommend_form, get_categorical_options, encoder_item. run_py.
    cbv [is_None orb]. run_py. rewrite Hfalsy. run_py. rewrite Hs. now cbn.
  - intros [soil_enc Hs] Hc.
    unfold recommend_form, get_categorical_options. run_py.
    cbv [is_None orb]. run_py. rewrite Hfalsy. cbv [mbind Py_bind].
    rewrite (encoder_item_found "Soil" soil_enc _ _ _ Hs).
    unfold encoder_item. run_py. rewrite Hc. now cbn.
Qed.

(** ** [/predict] *)

Section PredictFurther.

Variable float_of_string : string → option float.
Variable float_repr : float → string.

Lemma coerce_fields_first_failure d before key after e :
  (∀ k, k ∈ before → ∃ f, py_float float_of_string (dict_get d k) = inr f) →
  py_float float_of_string (dict_get d key) = inl e →
  coerce_fields float_of_string d (before ++ key :: after) = inl e.
Proof.
  intros Hbefore Hkey. induction before as [|k before IH]; cbn [app coerce_fields].
  - now rewrite Hkey.
  - destruct (Hbefore k) as [f ->]; [left|]. cbn.
    rewrite IH; [reflexivity|]. intros k' Hk'. apply Hbefore. now right.
Qed.

(** X9. Numeric validation stops at the first field, in the order the
    view reads them, that is missing (or null) or a string [float]
    rejects: with the fields before it converting, the answer is status
    400 with the one generic message, whatever the later fields and the
    soil and crop values are, and no encoder was looked up. *)
Theorem predict_first_invalid_number clf encs evs req d before key after :
  request_json req = inr (JDict d) →
  numeric_fields = before ++ key :: after →
  (∀ k, k ∈ before → ∃ f, py_float float_of_string (dict_get d k) = inr f) →
  dict_get d key = PNone ∨
  (∃ s, dict_get d key = PStr s ∧ float_of_string s = None) →
  predict float_of_string float_repr req (Process (Some clf) (Some encs) evs) =
    (inr (Response (error_body INVALID_INPUT) 400), Process (Some clf) (Some encs) evs).
Proof.
  intros Hbody Hfields Hbefore Hkey.
  assert (∃ e, py_float float_of_string (dict_get d key) = inl e ∧
               is_TypeError_or_ValueError e = true) as (e & He & Hcls).
  { destruct Hkey as [->|(s & -> & Hs)]; cbn; [|rewrite Hs]; eauto. }
  rewrite (predict_coercion_raises float_of_string float_repr clf encs evs req d e Hbody).
  - unfold predict_except. now rewrite Hcls.
  - rewrite Hfields. now apply coerce_fields_first_failure.
Qed.

(** X10. A body that is valid JSON but not an object (a list, a string,
    a number, null) is answered with status 500 and the [AttributeError]
    message of [data.get]; and when evaluating [request.json] itself
    raises, the answer is the generic 400 for a [TypeError] or
    [ValueError] and a 500 carrying the exception's message otherwise. *)
Theorem predict_rejected_body clf encs evs :
  (∀ ty,
     (predict float_of_string float_repr (Request (inr (JOther ty)))
        (Process (Some clf) (Some encs) evs)).1 =
       inr (Response
              (error_body ("Unexpected server error during prediction: '" +:+ ty +:+
                           "' object has no attribute 'get'"))
              500)) ∧
  (∀ e,
     (predict float_of_string float_repr (Request (inl e))
        (Process (Some clf) (Some encs) evs)).1 =
       inr (if is_TypeError_or_ValueError e then
              Response (error_body INVALID_INPUT) 400
            else
              Response
                (error_body ("Unexpected server error during prediction: " +:+ exn_msg e))
                500)).
Proof.
  split.
  - intros ty. reflexivity.
  - intros e. unfold predict, predict_except. run_py. cbv [is_None orb request_json].
    run_py. now destruct (is_TypeError_or_ValueError e).
Qed.

(** X11. Two bodies that agree on the nine fields the view reads (a key
    that is missing counting as null) are answered alike: any other key
    of the body is ignored, and a missing key cannot be told from an
    explicit null. *)
Theorem predict_reads_nine_fields req req' d d' p :
  request_json req = inr (JDict d) →
  request_json req' = inr (JDict d') →
  (∀ key, key ∈ numeric_fields ++ ["Soil"; "Crop"] → dict_get d key = dict_get d' key) →
  predict float_of_string float_repr req p = predict float_of_string float_repr req' p.
Proof.
  destruct req as [body], req' as [body']. cbn [request_json]. intros -> -> Hsame.
  destruct p as [[clf|] [encs|] evs]; try reflexivity.
  unfold predict; run_py; cbv [is_None orb request_json get];
    cbv [mbind Py_bind exn_bind lift].
  assert (∀ key, key ∈ numeric_fields ++ ["Soil"; "Crop"] →
                 dict_get d' key = dict_get d key) as Hsame'
    by (intros key Hkey; symmetry; now apply Hsame).
  rewrite !Hsame' by (unfold numeric_fields; cbn; set_solver).
  reflexivity.
Qed.

Section Numbers.

Variables (clf : Classifier) (encs : gmap string Encoder) (evs : list event).
Variables (req : request) (d : gmap string pyval).
Variables (temp moisture ph nitrogen phosphorous potassium carbon : float).

Hypothesis Hbody : request_json req = inr (JDict d).
Hypothesis Htemp : py_float float_of_string (dict_get d "Temperature") = inr temp.
Hypothesis Hmoisture : py_float float_of_string (dict_get d "Moisture") = inr moisture.
Hypothesis Hph : py_float float_of_string (dict_get d "PH") = inr ph.
Hypothesis Hnitrogen : py_float float_of_string (dict_get d "Nitrogen") = inr nitrogen.
Hypothesis Hphosphorous : py_float float_of_string (dict_get d "Phosphorous") = inr phosphorous.
Hypothesis Hpotassium : py_float float_of_string (dict_get d "Potassium") = inr potassium.
Hypothesis Hcarbon : py_float float_of_string (dict_get d "Carbon") = inr carbon.

Ltac past_numbers :=
  destruct req as [body]; cbn [request_json] in Hbody; subst body;
  unfold predict; run_py; cbv [is_None orb request_json get];
  cbv [mbind Py_bind exn_bind lift];
  rewrite Htemp, Hmoisture, Hph, Hnitrogen, Hphosphorous, Hpotassium, Hcarbon.

(** X12. With the numbers converted but an encoder set that lacks the
    "Soil" encoder, the view answers status 500 with the message of
    [KeyError: 'Soil'] and prints the error; with the "Soil" encoder there,
    the soil value known and the "Crop" encoder lacking, the same for
    'Crop'. *)
Theorem predict_missing_encoder :
  (encs !! "Soil" = None →
   predict float_of_string float_repr req (Process (Some clf) (Some encs) evs) =
     (inr (Response (error_body "Unexpected server error during prediction: 'Soil'") 500),
      Process (Some clf) (Some encs)
        (evs ++ [EncoderLookup "Soil"; Stdout "Prediction error: 'Soil'"]))) ∧
  (∀ soil_enc,
     encs !! "Soil" = Some soil_enc →
     contains soil_enc (dict_get d "Soil") = true →
     encs !! "Crop" = None →
     predict float_of_string float_repr req (Process (Some clf) (Some encs) evs) =
       (inr (Response (error_body "Unexpected server error during prediction: 'Crop'") 500),
        Process (Some clf) (Some encs)
          (evs ++ [EncoderLookup "Soil"; EncoderLookup "Crop";
                   Stdout "Prediction error: 'Crop'"]))).
Proof.
  split.
  - intros Hs. past_numbers. unfold encoder_item. run_py. rewrite Hs.
    unfold predict_except. cbn [is_TypeError_or_ValueError exn_cls]. run_py.
    now rewrite <- app_assoc.
  - intros soil_enc Hs Hsoil Hc. past_numbers.
    rewrite (encoder_item_found "Soil" soil_enc _ _ _ Hs), Hsoil. cbn [negb].
    unfold encoder_item. run_py. rewrite Hc.
    unfold predict_except. cbn [is_TypeError_or_ValueError exn_cls]. run_py.
    now rewrite <- !app_assoc.
Qed.

(** X13. The soil value is checked before the crop value: when neither
    passes the membership test of its encoder the answer names the soil
    value, only the "Soil" encoder was looked up, and the classifier was
    not invoked. *)
Theorem predict_soil_before_crop soil_enc crop_enc :
  encs !! "Soil" = Some soil_enc →
  encs !! "Crop" = Some crop_enc →
  contains soil_enc (dict_get d "Soil") = false →
  contains crop_enc (dict_get d "Crop") = false →
  predict float_of_string float_repr req (Process (Some clf) (Some encs) evs) =
    (inr (Response
            (error_body ("Unknown Soil Type: '" +:+ py_str float_repr (dict_get d "Soil") +:+ "'"))
            400),
     Process (Some clf) (Some encs) (evs ++ [EncoderLookup "Soil"])).
Proof.
  intros Hs _ Hsoil _.
  exact (predict_soil_unknown float_of_string float_repr clf encs evs req d soil_enc
           temp moisture ph nitrogen phosphorous potassium carbon
           Hbody Hs Htemp Hmoisture Hph Hnitrogen Hphosphorous Hpotassium Hcarbon Hsoil).
Qed.

(** X14. When the classifier raises on a validated record, a [TypeError]
    or [ValueError] of its own is answered like a bad number, status 400
    with the generic invalid-input message; any other exception is
    answered with status 500 carrying its message and printed. *)
Theorem predict_classifier_raises soil_enc crop_enc soil_code crop_code e :
  encs !! "Soil" = Some soil_enc →
  encs !! "Crop" = Some crop_enc →
  transform soil_enc (dict_get d "Soil") = inr soil_code →
  transform crop_enc (dict_get d "Crop") = inr crop_code →
  clf_predict clf
    [ [ temp; moisture; ph; nitrogen; phosphorous; potassium; carbon;
        Z_to_float soil_code; Z_to_float crop_code ] ] = inl e →
  (predict float_of_string float_repr req (Process (Some clf) (Some encs) evs)).1 =
    inr (if is_TypeError_or_ValueError e then
           Response (error_body INVALID_INPUT) 400
         else
           Response
             (error_body ("Unexpected server error during prediction: " +:+ exn_msg e))
             500) ∧
  stdout_lines (events (predict float_of_string float_repr req
                          (Process (Some clf) (Some encs) evs)).2) =
    stdout_lines evs ++
    (if is_TypeError_or_ValueError e then [] else ["Prediction error: " +:+ exn_msg e]).
Proof.
  intros Hs Hc Hsoil_code Hcrop_code Hraise.
  rewrite (predict_classifies float_of_string float_repr clf encs evs req d soil_enc crop_enc
             temp moisture ph nitrogen phosphorous potassium carbon
             Hbody Hs Hc Htemp Hmoisture Hph Hnitrogen Hphosphorous Hpotassium Hcarbon
             soil_code crop_code Hsoil_code Hcrop_code).
  cbv zeta. rewrite Hraise. cbv [mbind exn_bind]. unfold predict_except.
  destruct (is_TypeError_or_ValueError e); run_py;
    (split; [reflexivity|]);
    unfold stdout_lines; rewrite !omap_app; cbn; now rewrite ?app_nil_r.
Qed.

End Numbers.

End PredictFurther.

(** ** Every request *)

Lemma fertilizer_name_cases (label : Z) :
  (0 ≤ label ≤ 9 ∧
   FERTILIZER_MAPPING !! label =
     Some (default "Unknown Fertilizer" (FERTILIZER_MAPPING !! label))) ∨
  (¬ (0 ≤ label ≤ 9) ∧
   default "Unknown Fertilizer" (FERTILIZER_MAPPING !! label) = "Unknown Fertilizer").
Proof.
  destruct (decide (0 ≤ label ≤ 9)) as [Hin|Hout].
  - left. split; [exact Hin|].
    destruct (FERTILIZER_MAPPING_inside label Hin) as [name ->]. reflexivity.
  - right. split; [exact Hout|]. now rewrite (FERTILIZER_MAPPING_outside label Hout).
Qed.

(** X15. The name lookup tells the labels apart: labels from 0 to 9 with
    the same name are the same label, and the fallback name is what a
    label gets exactly when it is outside 0 to 9. *)
Theorem fertilizer_name_identifies_label (label label' : Z) :
  (0 ≤ label ≤ 9 → 0 ≤ label' ≤ 9 →
   FERTILIZER_MAPPING !! label = FERTILIZER_MAPPING !! label' → label = label') ∧
  (default "Unknown Fertilizer" (FERTILIZER_MAPPING !! label) = "Unknown Fertilizer" ↔
   ¬ (0 ≤ label ≤ 9)).
Proof.
  split.
  - intros Hin Hin'.
    assert (label = 0 ∨ label = 1 ∨ label = 2 ∨ label = 3 ∨ label = 4 ∨
            label = 5 ∨ label = 6 ∨ label = 7 ∨ label = 8 ∨ label = 9) as Hcases by lia.
    assert (label' = 0 ∨ label' = 1 ∨ label' = 2 ∨ label' = 3 ∨ label' = 4 ∨
            label' = 5 ∨ label' = 6 ∨ label' = 7 ∨ label' = 8 ∨ label' = 9) as Hcases' by lia.
    clear Hin Hin'.
    repeat destruct Hcases as [->|Hcases]; try subst label;
      repeat destruct Hcases' as [->|Hcases']; try subst label';
      vm_compute; intros H; first [reflexivity|discriminate H].
  - split.
    + intros Hname Hin.
      assert (label = 0 ∨ label = 1 ∨ label = 2 ∨ label = 3 ∨ label = 4 ∨
              label = 5 ∨ label = 6 ∨ label = 7 ∨ label = 8 ∨ label = 9) as Hcases by lia.
      repeat destruct Hcases as [->|Hcases]; try subst label; discriminate Hname.
    + intros Hout. now rewrite (FERTILIZER_MAPPING_outside label Hout).
Qed.

Section EveryRequest.

Variable float_of_string : string → option float.
Variable float_repr : float → string.

Ltac split_predict :=
  repeat first
    [ progress cbn [negb item0 fst snd events model label_encoders
                    is_TypeError_or_ValueError exn_cls]
    | match goal with
      | H : _ !! _ = _ |- _ => progress rewrite H
      end
    | match goal with
      | |- context [py_float float_of_string ?v] =>
          destruct (py_float float_of_string v) as [?e|?f] eqn:?
      | |- context [contains ?enc ?v] => destruct (contains enc v) eqn:?
      | |- context [transform ?enc ?v] => destruct (transform enc v) as [?e|?code] eqn:?
      | |- context [clf_predict ?clf ?rows] =>
          destruct (clf_predict clf rows) as [?e|[|?label ?rest]] eqn:?
      | |- context [is_TypeError_or_ValueError ?e] =>
          destruct (is_TypeError_or_ValueError e) eqn:?
      end ].

Ltac every_run req m encs :=
  destruct m as [?clf|]; [destruct encs as [?d|]|];
  [ match goal with
    | d : gmap string Encoder |- _ =>
        destruct (d !! "Soil") as [?soil_enc|] eqn:?;
        destruct (d !! "Crop") as [?crop_enc|] eqn:?
    end;
    destruct req as [[?e|[?body|?ty]]];
    unfold predict, encoder_item, model_predict, predict_except; run_py;
    cbv [is_None orb request_json get];
    cbv [mbind Py_bind exn_bind lift mret Py_ret raise];
    split_predict; rewrite <- ?app_assoc; cbn [app]
  | | ].

(** X16. Whatever the request and the state, [/predict] invokes the
    classifier at most once, on a batch of one row of nine numbers, and
    only after it looked up the "Soil" and "Crop" encoders to check the
    two values and again to encode them; and it never looks up encoders
    otherwise than in that order. *)
Theorem predict_classifier_at_most_once req m encs evs :
  ∃ r new,
    predict float_of_string float_repr req (Process m encs evs) =
      (inr r, Process m encs (evs ++ new)) ∧
    encoder_lookups new `prefix_of` ["Soil"; "Crop"; "Soil"; "Crop"] ∧
    (model_inputs new = [] ∨
     ∃ row,
       model_inputs new = [ [ row ] ] ∧ length row = 9%nat ∧
       encoder_lookups new = ["Soil"; "Crop"; "Soil"; "Crop"]).
Proof.
  every_run req m encs.
  all: try (eexists _, _; split; [reflexivity|];
            split; [by eexists|]; first [by left | right; by eexists]).
  all: eexists _, []; rewrite app_nil_r; (split; [reflexivity|]);
         split; [by eexists|by left].
Qed.

(** X17. [/predict] prints only on the catch-all path: a response with
    status 200 or 400, and the 500 of the guard, come with no printed
    line; every other response is a 500 whose message is "Unexpected
    server error during prediction: " followed by the exception's
    message, and comes with the one printed line "Prediction error: "
    followed by the same message. *)
Theorem predict_prints_unexpected_only req m encs evs :
  ∃ r new,
    predict float_of_string float_repr req (Process m encs evs) =
      (inr r, Process m encs (evs ++ new)) ∧
    ((stdout_lines new = [] ∧
      (status r = 200 ∨ status r = 400 ∨
       r = Response (error_body "Model not loaded.") 500)) ∨
     ∃ message,
       stdout_lines new = ["Prediction error: " +:+ message] ∧
       r = Response
             (error_body ("Unexpected server error during prediction: " +:+ message))
             500).
Proof.
  every_run req m encs.
  all: try (eexists _, _; split; [reflexivity|];
            first [ left; split; [reflexivity|]; first [by left | by right; left]
                  | right; by eexists ]).
  all: eexists _, []; rewrite app_nil_r; (split; [reflexivity|]);
         first [ left; split; [reflexivity|];
                 first [by left | by right; left | by right; right]
               | right; by eexists ].
Qed.

(** X18. A success response of [/predict] always carries one of the ten
    names of the table or the fallback name; every other response is an
    error object with status 400 or 500. *)
Theorem predict_success_is_named req m encs evs :
  ∃ r new,
    predict float_of_string float_repr req (Process m encs evs) =
      (inr r, Process m encs (evs ++ new)) ∧
    ((∃ name,
        r = Response (success_body name) 200 ∧
        (name = "Unknown Fertilizer" ∨
         ∃ label, 0 ≤ label ≤ 9 ∧ FERTILIZER_MAPPING !! label = Some name)) ∨
     (∃ message, r = Response (error_body message) 400) ∨
     (∃ message, r = Response (error_body message) 500)).
Proof.
  every_run req m encs.
  all: try (eexists _, _; split; [reflexivity|];
            first [ right; left; by eexists | right; right; by eexists ]).
  all: try (eexists _, []; rewrite app_nil_r; (split; [reflexivity|]);
            first [ right; left; by eexists | right; right; by eexists ]).
  all: eexists _, _; (split; [reflexivity|]); left; eexists; (split; [reflexivity|]);
         match goal with
         | |- context [FERTILIZER_MAPPING !! ?label] =>
             destruct (fertilizer_name_cases label) as [[Hin Hname]|[_ Hname]];
             [right; by exists label | by left]
         end.
Qed.

(** ** The routes together *)

Lemma read_only_home : read_only home.
Proof. unfold home. auto with py_read_only. Qed.

Lemma read_only_get_categorical_options : read_only get_categorical_options.
Proof.
  unfold get_categorical_options.
  apply read_only_bind; [auto with py_read_only|intros encs].
  apply read_only_if; auto 6 with py_read_only.
Qed.

Lemma read_only_recommend_form : read_only recommend_form.
Proof.
  unfold recommend_form.
  apply read_only_bind; [auto with py_read_only|intros m].
  apply read_only_bind; [auto with py_read_only|intros encs].
  apply read_only_if; [auto with py_read_only|].
  apply read_only_bind; [apply read_only_get_categorical_options|intros options].
  auto 6 with py_read_only.
Qed.

Lemma read_only_view c : read_only (view float_of_string float_repr c).
Proof.
  destruct c; cbn;
    auto using read_only_home, read_only_recommend_form, read_only_predict.
Qed.

Lemma serve_run calls m encs :
  ∃ answers new,
    length answers = length calls ∧
    ∀ evs,
      serve float_of_string float_repr calls (Process m encs evs) =
        (inr answers, Process m encs (evs ++ new)).
Proof.
  induction calls as [|c calls (answers & new & Hlen & Hrun)].
  - exists [], []. split; [reflexivity|]. intros evs. cbn. now rewrite app_nil_r.
  - destruct (read_only_view c m encs) as (r & new1 & Hview).
    exists (r :: answers), (new1 ++ new). split; [cbn; now rewrite Hlen|].
    intros evs. cbn [serve]. cbv [mbind Py_bind attempt].
    rewrite Hview, Hrun. cbn. now rewrite app_assoc.
Qed.

(** X19. Serving any sequence of requests raises nothing, gives one
    answer per request, and leaves [model] and [label_encoders] as they
    were at the start: no view assigns the globals. *)
Theorem serve_keeps_globals calls p :
  ∃ answers,
    (serve float_of_string float_repr calls p).1 = inr answers ∧
    length answers = length calls ∧
    model (serve float_of_string float_repr calls p).2 = model p ∧
    label_encoders (serve float_of_string float_repr calls p).2 = label_encoders p.
Proof.
  destruct p as [m encs evs].
  destruct (serve_run calls m encs) as (answers & new & Hlen & Hrun).
  exists answers. now rewrite Hrun.
Qed.

Lemma serve_absent calls p :
  absent p →
  serve float_of_string float_repr calls p = (inr (inr ∘ degraded_answer <$> calls), p).
Proof.
  intros Ha. induction calls as [|c calls IH]; [reflexivity|].
  cbn [serve]. cbv [mbind Py_bind attempt].
  assert (view float_of_string float_repr c p = (inr (degraded_answer c), p)) as ->.
  { destruct c as [| |req]; cbn.
    - reflexivity.
    - now apply recommend_form_guard.
    - now apply predict_guard. }
  now rewrite IH.
Qed.

(** X20. A process whose artifacts did not load stays degraded: after the
    main block, every request of any sequence gets the degraded answer of
    its route (the landing page, the error page with status 500, the
    "Model not loaded." error with status 500), and serving adds no event:
    no encoder or classifier is touched. *)
Theorem serve_after_failed_load fs calls p :
  loads fs = false →
  (startup fs p).1 = inr tt ∧
  serve float_of_string float_repr calls (startup fs p).2 =
    (inr (inr ∘ degraded_answer <$> calls), (startup fs p).2).
Proof.
  intros Hl. rewrite startup_run. split; [reflexivity|].
  apply serve_absent. left. cbn. now rewrite (load_assets_failure fs p Hl).
Qed.

(** X21. After a main block that found both artifacts, with encoders for
    "Soil" and "Crop" in the pickled set, [/recommend] shows exactly the
    pickled encoders' [classes_], whatever the globals held before. *)
Theorem recommend_form_after_load fs clf encs soil_enc crop_enc p :
  model_file fs = Pickled clf →
  encoder_file fs = Pickled encs →
  encs !! "Soil" = Some soil_enc →
  encs !! "Crop" = Some crop_enc →
  (recommend_form (startup fs p).2).1 =
    inr (Response
           (RenderTemplate "recommend.html"
              {[ "soil_options" := TList (classes_ soil_enc);
                 "crop_options" := TList (classes_ crop_enc) ]})
           200).
Proof.
  intros Hm He Hs Hc. rewrite startup_run. cbn [snd].
  rewrite (load_assets_loaded fs clf encs p Hm He). cbn [snd model label_encoders events].
  now rewrite (recommend_form_options clf encs _ soil_enc crop_enc Hs Hc).
Qed.

End EveryRequest.

(** ** The form and the prediction agree *)

Lemma get_categorical_options_found m d evs soil_enc crop_enc :
  d !! "Soil" = Some soil_enc →
  d !! "Crop" = Some crop_enc →
  get_categorical_options (Process m (Some d) evs) =
    (inr {[ "Soil" := classes_ soil_enc; "Crop" := classes_ crop_enc ]},
     Process m (Some d) (evs ++ [EncoderLookup "Soil"; EncoderLookup "Crop"])).
Proof.
  intros Hs Hc. unfold get_categorical_options.
  cbv [mbind Py_bind get_label_encoders label_encoders].
  rewrite (falsy_with_field d "Soil" soil_enc Hs).
  rewrite (encoder_item_found "Soil" soil_enc _ _ _ Hs).
  rewrite (encoder_item_found "Crop" crop_enc _ _ _ Hc).
  now rewrite <- app_assoc.
Qed.

Section FormAndPrediction.

Variable float_of_string : string → option float.
Variable float_repr : float → string.

Variables (clf : Classifier) (encs : gmap string Encoder) (evs evs' : list event).
Variables (req : request) (d : gmap string pyval).
Variables (soil_enc crop_enc : Encoder).
Variables (temp moisture ph nitrogen phosphorous potassium carbon : float).
Variables (options : gmap string (list string)) (soils crops : list string).
Variables (soil crop : string).

Hypothesis Hbody : request_json req = inr (JDict d).
Hypothesis Hsoil_enc : encs !! "Soil" = Some soil_enc.
Hypothesis Hcrop_enc : encs !! "Crop" = Some crop_enc.
Hypothesis Htemp : py_float float_of_string (dict_get d "Temperature") = inr temp.
Hypothesis Hmoisture : py_float float_of_string (dict_get d "Moisture") = inr moisture.
Hypothesis Hph : py_float float_of_string (dict_get d "PH") = inr ph.
Hypothesis Hnitrogen : py_float float_of_string (dict_get d "Nitrogen") = inr nitrogen.
Hypothesis Hphosphorous : py_float float_of_string (dict_get d "Phosphorous") = inr phosphorous.
Hypothesis Hpotassium : py_float float_of_string (dict_get d "Potassium") = inr potassium.
Hypothesis Hcarbon : py_float float_of_string (dict_get d "Carbon") = inr carbon.
Hypothesis Hoptions :
  (get_categorical_options (Process (Some clf) (Some encs) evs')).1 = inr options.
Hypothesis Hsoils : options !! "Soil" = Some soils.
Hypothesis Hcrops : options !! "Crop" = Some crops.
Hypothesis Hsoil : dict_get d "Soil" = PStr soil.
Hypothesis Hcrop : dict_get d "Crop" = PStr crop.

Lemma options_lists : soils = classes_ soil_enc ∧ crops = classes_ crop_enc.
Proof.
  rewrite (get_categorical_options_found _ _ _ _ _ Hsoil_enc Hcrop_enc) in Hoptions.
  cbn in Hoptions. injection Hoptions as <-.
  rewrite lookup_insert_eq in Hsoils.
  rewrite lookup_insert_ne, lookup_singleton_eq in Hcrops by done.
  split; congruence.
Qed.

(** X22. Every option [/recommend] offers is a value [/predict]
    accepts: with the numbers converted, a soil and a crop taken from the
    two option lists pass validation and the classifier is invoked on the
    record's row, their codes being their positions in the lists.  A soil
    string that, its trailing NULs dropped, is not among the options is
    answered with status 400 naming it, and so is such a crop string when
    the soil, its trailing NULs dropped, is an option. *)
Theorem offered_options_are_accepted :
  (soil ∈ soils → crop ∈ crops →
   ∃ soil_code crop_code,
     soils !! Z.to_nat soil_code = Some soil ∧
     crops !! Z.to_nat crop_code = Some crop ∧
     model_inputs
       (events (predict float_of_string float_repr req
                  (Process (Some clf) (Some encs) evs)).2) =
       model_inputs evs ++
       [ [ [ temp; moisture; ph; nitrogen; phosphorous; potassium; carbon;
             Z_to_float soil_code; Z_to_float crop_code ] ] ]) ∧
  (strip_nul soil ∉ soils →
   (predict float_of_string float_repr req (Process (Some clf) (Some encs) evs)).1 =
     inr (Response (error_body ("Unknown Soil Type: '" +:+ soil +:+ "'")) 400)) ∧
  (strip_nul soil ∈ soils → strip_nul crop ∉ crops →
   (predict float_of_string float_repr req (Process (Some clf) (Some encs) evs)).1 =
     inr (Response (error_body ("Unknown Crop Type: '" +:+ crop +:+ "'")) 400)).
Proof.
  destruct options_lists as [-> ->].
  assert (Hin : ∀ enc v s, v = PStr s → strip_nul s ∈ classes_ enc → contains enc v = true).
  { intros enc v s -> Hs. cbn. now apply bool_decide_eq_true. }
  assert (Hout : ∀ enc v s, v = PStr s → strip_nul s ∉ classes_ enc → contains enc v = false).
  { intros enc v s -> Hs. cbn. now apply bool_decide_eq_false. }
  split; [|split].
  - intros Hs Hc.
    destruct (transform_label soil_enc soil Hs) as (i & Hi & Hsi).
    destruct (transform_label crop_enc crop Hc) as (j & Hj & Hcj).
    rewrite <- Hsoil in Hi. rewrite <- Hcrop in Hj.
    exists (Z.of_nat i), (Z.of_nat j). rewrite !Nat2Z.id.
    split; [exact Hsi|]. split; [exact Hcj|].
    rewrite (predict_classifies float_of_string float_repr clf encs evs req d
               soil_enc crop_enc temp moisture ph nitrogen phosphorous potassium carbon
               Hbody Hsoil_enc Hcrop_enc Htemp Hmoisture Hph Hnitrogen Hphosphorous
               Hpotassium Hcarbon _ _ Hi Hj).
    cbv zeta.
    match goal with
    | |- context [clf_predict clf ?rows ≫= item0] =>
        destruct (clf_predict clf rows ≫= item0) as [e|label]
    end.
    + unfold predict_except. destruct (is_TypeError_or_ValueError e); run_py;
        rewrite !model_inputs_app; cbn; now rewrite ?app_nil_r.
    + cbn [snd events]. now rewrite model_inputs_app.
  - intros Hs.
    rewrite (predict_soil_unknown float_of_string float_repr clf encs evs req d soil_enc
               temp moisture ph nitrogen phosphorous potassium carbon
               Hbody Hsoil_enc Htemp Hmoisture Hph Hnitrogen Hphosphorous Hpotassium Hcarbon
               (Hout _ _ _ Hsoil Hs)).
    now rewrite Hsoil.
  - intros Hs Hc.
    rewrite (predict_crop_unknown float_of_string float_repr clf encs evs req d
               soil_enc crop_enc temp moisture ph nitrogen phosphorous potassium carbon
               Hbody Hsoil_enc Hcrop_enc Htemp Hmoisture Hph Hnitrogen Hphosphorous
               Hpotassium Hcarbon (Hin _ _ _ Hsoil Hs) (Hout _ _ _ Hcrop Hc)).
    now rewrite Hcrop.
Qed.

End FormAndPrediction.

(** ** The further properties on the sample data *)

Lemma load_assets_sets_both_witness :
  load_assets sample_artifacts (sample_process 2) =
    (inr tt,
     Process (Some (constant_classifier 8)) (Some sample_encoders)
       [Stdout ("✔ Model and Label Encoders loaded successfully." +:+
                String "010"%char EmptyString)]).
Proof.
  apply (load_assets_sets_both sample_artifacts (constant_classifier 8) sample_encoders
           (sample_process 2)); reflexivity.
Defined.

Lemma load_assets_model_first_witness :
  load_assets {| model_file := NoSuchFile; encoder_file := Pickled sample_encoders |}
    (sample_process 2) =
  load_assets {| model_file := NoSuchFile; encoder_file := NoSuchFile |} (sample_process 2).
Proof.
  apply (load_assets_model_first
           {| model_file := NoSuchFile; encoder_file := Pickled sample_encoders |}
           {| model_file := NoSuchFile; encoder_file := NoSuchFile |} (sample_process 2)).
  - reflexivity.
  - intros clf. discriminate.
Defined.

Lemma load_assets_failure_report_witness :
  events (load_assets {| model_file := Pickled (constant_classifier 8);
                         encoder_file := NoSuchFile |} initial).2 =
    [ Stdout "✘ Error: One or both files (decision_tree_model.pkl, label_encoders.pkl) not found.";
      Stdout "Please ensure the model and encoder files are in the same directory as app.py." ] ∧
  events (load_assets {| model_file := Unloadable (Raise (OtherException "UnpicklingError")
                                                     "invalid load key");
                         encoder_file := Pickled sample_encoders |} initial).2 =
    [ Stdout "✘ Error loading assets: invalid load key" ].
Proof.
  split.
  - apply (proj1 (load_assets_failure_report
                    {| model_file := Pickled (constant_classifier 8);
                       encoder_file := NoSuchFile |} initial)).
    right. split; [now eexists|reflexivity].
  - apply (proj2 (load_assets_failure_report
                    {| model_file := Unloadable (Raise (OtherException "UnpicklingError")
                                                   "invalid load key");
                       encoder_file := Pickled sample_encoders |} initial)
             (Raise (OtherException "UnpicklingError") "invalid load key")).
    + reflexivity.
    + left. reflexivity.
Defined.

Lemma recommend_form_renders_options_witness :
  recommend_form (sample_process 8) =
    (inr (Response
            (RenderTemplate "recommend.html"
               {[ "soil_options" := TList [ "Clayey"; "Loamy"; "Sandy" ];
                  "crop_options" := TList [ "Maize"; "Rice"; "Wheat" ] ]})
            200),
     Process (Some (constant_classifier 8)) (Some sample_encoders)
       [EncoderLookup "Soil"; EncoderLookup "Crop"]).
Proof.
  apply (recommend_form_renders_options (constant_classifier 8) sample_encoders []
           sample_soil sample_crop); reflexivity.
Defined.

Lemma recommend_form_missing_encoder_witness :
  (recommend_form
     (Process (Some (constant_classifier 8)) (Some {[ "Crop" := sample_crop ]}) [])).1 =
    inl (Raise KeyError "'Soil'") ∧
  (recommend_form
     (Process (Some (constant_classifier 8)) (Some {[ "Soil" := sample_soil ]}) [])).1 =
    inl (Raise KeyError "'Crop'").
Proof.
  split.
  - refine (proj2 (proj1 (recommend_form_missing_encoder (constant_classifier 8)
                            {[ "Crop" := sample_crop ]} [] _) _)).
    + intros Hempty. apply (f_equal (λ d : gmap string Encoder, d !! "Crop")) in Hempty.
      vm_compute in Hempty. discriminate Hempty.
    + reflexivity.
  - refine (proj2 (proj2 (recommend_form_missing_encoder (constant_classifier 8)
                            {[ "Soil" := sample_soil ]} [] _) _ _)).
    + intros Hempty. apply (f_equal (λ d : gmap string Encoder, d !! "Soil")) in Hempty.
      vm_compute in Hempty. discriminate Hempty.
    + now eexists.
    + reflexivity.
Defined.

Lemma predict_first_invalid_number_witness :
  predict digits_to_float float_class_name
    (post (<["PH" := PStr "acid"]> (delete "Carbon" (sample_record "Martian" "Wheat"))))
    (sample_process 8) =
    (inr (Response (error_body INVALID_INPUT) 400), sample_process 8).
Proof.
  refine (predict_first_invalid_number digits_to_float float_class_name
            (constant_classifier 8) sample_encoders []
            (post (<["PH" := PStr "acid"]> (delete "Carbon" (sample_record "Martian" "Wheat"))))
            (<["PH" := PStr "acid"]> (delete "Carbon" (sample_record "Martian" "Wheat")))
            [ "Temperature"; "Moisture" ] "PH"
            [ "Nitrogen"; "Phosphorous"; "Potassium"; "Carbon" ] _ _ _ _).
  - reflexivity.
  - reflexivity.
  - intros k Hk. apply list_elem_of_In in Hk.
    destruct Hk as [<-|[<-|[]]]; eexists; vm_compute; reflexivity.
  - right. exists "acid". split; vm_compute; reflexivity.
Defined.

Lemma predict_reads_nine_fields_witness :
  predict digits_to_float float_class_name
    (post (<["Farm" := PStr "north field"]> (<["Soil" := PNone]> sample_numbers)))
    (sample_process 8) =
  predict digits_to_float float_class_name (post sample_numbers) (sample_process 8).
Proof.
  apply (predict_reads_nine_fields digits_to_float float_class_name
           (post (<["Farm" := PStr "north field"]> (<["Soil" := PNone]> sample_numbers)))
           (post sample_numbers)
           (<["Farm" := PStr "north field"]> (<["Soil" := PNone]> sample_numbers))
           sample_numbers (sample_process 8)).
  - reflexivity.
  - reflexivity.
  - intros key Hkey. apply list_elem_of_In in Hkey. cbn in Hkey.
    repeat destruct Hkey as [<-|Hkey]; try (vm_compute; reflexivity). destruct Hkey.
Defined.

Lemma predict_missing_encoder_witness :
  predict digits_to_float float_class_name (post (sample_record "Loamy" "Wheat"))
    (Process (Some (constant_classifier 8)) (Some {[ "Crop" := sample_crop ]}) []) =
    (inr (Response (error_body "Unexpected server error during prediction: 'Soil'") 500),
     Process (Some (constant_classifier 8)) (Some {[ "Crop" := sample_crop ]})
       [EncoderLookup "Soil"; Stdout "Prediction error: 'Soil'"]).
Proof.
  refine (proj1 (predict_missing_encoder digits_to_float float_class_name
                   (constant_classifier 8) {[ "Crop" := sample_crop ]} []
                   (post (sample_record "Loamy" "Wheat")) (sample_record "Loamy" "Wheat")
                   (Z_to_float 25) (Z_to_float 60) (dyadic 13 (-1)) (Z_to_float 20)
                   (Z_to_float 15) (Z_to_float 10) (dyadic 5404319552844595 (-52))
                   _ _ _ _ _ _ _ _) _);
    vm_compute; reflexivity.
Defined.

Lemma predict_soil_before_crop_witness :
  predict digits_to_float float_class_name (post (sample_record "Martian" "Quinoa"))
    (sample_process 8) =
    (inr (Response (error_body "Unknown Soil Type: 'Martian'") 400),
     Process (Some (constant_classifier 8)) (Some sample_encoders) [EncoderLookup "Soil"]).
Proof.
  refine (predict_soil_before_crop digits_to_float float_class_name
            (constant_classifier 8) sample_encoders []
            (post (sample_record "Martian" "Quinoa")) (sample_record "Martian" "Quinoa")
            (Z_to_float 25) (Z_to_float 60) (dyadic 13 (-1)) (Z_to_float 20)
            (Z_to_float 15) (Z_to_float 10) (dyadic 5404319552844595 (-52))
            _ _ _ _ _ _ _ _ sample_soil sample_crop _ _ _ _);
    vm_compute; reflexivity.
Defined.

Lemma predict_classifier_raises_witness :
  (predict digits_to_float float_class_name (post (sample_record "Loamy" "Wheat"))
     (Process (Some (raising_classifier (Raise ValueError "Input X contains infinity")))
        (Some sample_encoders) [])).1 =
    inr (Response (error_body INVALID_INPUT) 400) ∧
  stdout_lines
    (events (predict digits_to_float float_class_name (post (sample_record "Loamy" "Wheat"))
               (Process (Some (raising_classifier (Raise ValueError "Input X contains infinity")))
                  (Some sample_encoders) [])).2) = [].
Proof.
  refine (predict_classifier_raises digits_to_float float_class_name
            (raising_classifier (Raise ValueError "Input X contains infinity"))
            sample_encoders []
            (post (sample_record "Loamy" "Wheat")) (sample_record "Loamy" "Wheat")
            (Z_to_float 25) (Z_to_float 60) (dyadic 13 (-1)) (Z_to_float 20)
            (Z_to_float 15) (Z_to_float 10) (dyadic 5404319552844595 (-52))
            _ _ _ _ _ _ _ _ sample_soil sample_crop 1 2
            (Raise ValueError "Input X contains infinity") _ _ _ _ _);
    vm_compute; reflexivity.
Defined.

Lemma fertilizer_name_identifies_label_witness :
  (FERTILIZER_MAPPING !! 2 = FERTILIZER_MAPPING !! 2 → 2 = 2) ∧
  default "Unknown Fertilizer" (FERTILIZER_MAPPING !! 11) = "Unknown Fertilizer".
Proof.
  split.
  - intros Hname. apply (proj1 (fertilizer_name_identifies_label 2 2)); [lia|lia|exact Hname].
  - apply (proj2 (fertilizer_name_identifies_label 11 11)). lia.
Defined.

Lemma serve_after_failed_load_witness :
  let fs := {| model_file := NoSuchFile; encoder_file := Pickled sample_encoders |} in
  let calls := [ GetHome; GetRecommend; PostPredict (post (sample_record "Loamy" "Wheat")) ] in
  (startup fs initial).1 = inr tt ∧
  serve digits_to_float float_class_name calls (startup fs initial).2 =
    (inr (inr ∘ degraded_answer <$> calls), (startup fs initial).2).
Proof.
  intros fs calls.
  apply (serve_after_failed_load digits_to_float float_class_name fs calls initial).
  reflexivity.
Defined.

Lemma recommend_form_after_load_witness :
  (recommend_form (startup sample_artifacts initial).2).1 =
    inr (Response
           (RenderTemplate "recommend.html"
              {[ "soil_options" := TList [ "Clayey"; "Loamy"; "Sandy" ];
                 "crop_options" := TList [ "Maize"; "Rice"; "Wheat" ] ]})
           200).
Proof.
  apply (recommend_form_after_load sample_artifacts (constant_classifier 8) sample_encoders
           sample_soil sample_crop initial); reflexivity.
Defined.

Lemma offered_options_are_accepted_witness :
  ∃ soil_code crop_code,
    [ "Clayey"; "Loamy"; "Sandy" ] !! Z.to_nat soil_code = Some "Loamy" ∧
    [ "Maize"; "Rice"; "Wheat" ] !! Z.to_nat crop_code = Some "Wheat" ∧
    model_inputs
      (events (predict digits_to_float float_class_name
                 (post (sample_record "Loamy" "Wheat")) (sample_process 8)).2) =
      [ [ [ Z_to_float 25; Z_to_float 60; dyadic 13 (-1); Z_to_float 20; Z_to_float 15;
            Z_to_float 10; dyadic 5404319552844595 (-52);
            Z_to_float soil_code; Z_to_float crop_code ] ] ].
Proof.
  refine (proj1 (offered_options_are_accepted digits_to_float float_class_name
                   (constant_classifier 8) sample_encoders [] []
                   (post (sample_record "Loamy" "Wheat")) (sample_record "Loamy" "Wheat")
                   sample_soil sample_crop
                   (Z_to_float 25) (Z_to_float 60) (dyadic 13 (-1)) (Z_to_float 20)
                   (Z_to_float 15) (Z_to_float 10) (dyadic 5404319552844595 (-52))
                   {[ "Soil" := [ "Clayey"; "Loamy"; "Sandy" ];
                      "Crop" := [ "Maize"; "Rice"; "Wheat" ] ]}
                   [ "Clayey"; "Loamy"; "Sandy" ] [ "Maize"; "Rice"; "Wheat" ]
                   "Loamy" "Wheat"
                   _ _ _ _ _ _ _ _ _ _ _ _ _ _ _) _ _);
    try (vm_compute; reflexivity).
  - apply list_elem_of_In. cbn. tauto.
  - apply list_elem_of_In. cbn. tauto.
Defined.
